(** * api/predict.py: the prediction request handler

    A shallow embedding of [Handler.process_prediction_request] and
    [Handler.generate_predictions] of [src/api/predict.py], and the
    properties of the request validation, the calendar sequence, the
    per-period failure isolation and the price statistics.

    Python values are modelled as the interpreter has them (CPython 3.11,
    where the builtins differ between versions): [int] as [Z],
    [float] as IEEE 754 binary64 (Rocq's primitive [float]), [str] as
    [string] (one character per code point below 256), [dict] with string
    keys as [gmap string _], [None] as a constructor of its own or as
    [option].  Exceptions are a result type; the collaborator
    [model.predict_single_item] and the clock are explicit. *)

From Stdlib Require Import ZArith Floats String Ascii DecimalString List Bool Lia.
From Stdlib Require DecimalPos.
From stdpp Require Import base strings gmap list.

#[local] Set Warnings "-register-all,-inexact-float".
#[local] Open Scope Z_scope.

(** ** Python primitives *)

Module Py.

(** Exceptions, by the classes the handler distinguishes. [str(e)] is the
    message. *)
Inductive exn_class : Set :=
| AttributeError | ValueError | TypeError | OverflowError | OtherException.

Record exn : Set := mkExn { cls : exn_class; msg : string }.

Inductive res (A : Type) : Type :=
| Ok (a : A)
| Raise (e : exn).
Arguments Ok {A} a.
Arguments Raise {A} e.

Definition bind {A B : Type} (m : res A) (k : A -> res B) : res B :=
  match m with
  | Ok a => k a
  | Raise e => Raise e
  end.

(** What [json.loads] produces. *)
Inductive value : Type :=
| VNone
| VBool (b : bool)
| VInt (z : Z)
| VFloat (f : float)
| VStr (s : string)
| VList (l : list value)
| VDict (d : gmap string value).

Definition type_name (v : value) : string :=
  match v with
  | VNone => "NoneType"
  | VBool _ => "bool"
  | VInt _ => "int"
  | VFloat _ => "float"
  | VStr _ => "str"
  | VList _ => "list"
  | VDict _ => "dict"
  end.

Definition no_attribute (v : value) (attr : string) : exn :=
  mkExn AttributeError
    ("'" +:+ type_name v +:+ "' object has no attribute '" +:+ attr +:+ "'").

(** [data.get(key, default)]: only a dict has the method. *)
Definition get (data : value) (key : string) (default : value) : res value :=
  match data with
  | VDict d => Ok (match d !! key with Some v => v | None => default end)
  | _ => Raise (no_attribute data "get")
  end.

(** [str.isspace] on the code points below 256. *)
Definition isspace (c : ascii) : bool :=
  let n := N_of_ascii c in
  ((9 <=? n) && (n <=? 13) || (28 <=? n) && (n <=? 32)
   || (n =? 133) || (n =? 160))%N.

Fixpoint lstrip (s : string) : string :=
  match s with
  | EmptyString => EmptyString
  | String c s' => if isspace c then lstrip s' else s
  end.

Fixpoint rstrip (s : string) : string :=
  match s with
  | EmptyString => EmptyString
  | String c s' =>
      match rstrip s' with
      | EmptyString => if isspace c then EmptyString else String c EmptyString
      | r => String c r
      end
  end.

Definition str_strip (s : string) : string := lstrip (rstrip s).

(** [v.strip()]: only a str has the method. *)
Definition strip (v : value) : res string :=
  match v with
  | VStr s => Ok (str_strip s)
  | _ => Raise (no_attribute v "strip")
  end.

(** Truthiness of a str: [not s] is [true] exactly on the empty string. *)
Definition str_truthy (s : string) : bool :=
  match s with
  | EmptyString => false
  | String _ _ => true
  end.

Definition len {A : Type} (l : list A) : Z := Z.of_nat (length l).

(** [range(n)] *)
Definition range (n : Z) : list Z := map Z.of_nat (seq 0 (Z.to_nat n)).

(** [sep.join(l)] *)
Fixpoint join (sep : string) (l : list string) : string :=
  match l with
  | [] => ""
  | [s] => s
  | s :: rest => s +:+ sep +:+ join sep rest
  end.

(** [str(n)] of an int. *)
Definition str_of_int (n : Z) : string := NilZero.string_of_int (Z.to_int n).

Fixpoint zeros (n : nat) : string :=
  match n with
  | O => ""
  | S n' => String "0" (zeros n')
  end.

(** [f"{n:02d}"]: sign first, then zeros up to a total width of 2. *)
Definition format_02d (n : Z) : string :=
  let digits := str_of_int (Z.abs n) in
  let sign := if n <? 0 then "-" else "" in
  sign +:+ zeros (2 - String.length sign - String.length digits) +:+ digits.

(** *** [int(x)] *)

Definition digit_of (c : ascii) : option Z :=
  let n := N_of_ascii c in
  if ((48 <=? n) && (n <=? 57))%N then Some (Z.of_N n - 48) else None.

(** Decimal digits, with single underscores allowed between two digits. *)
Fixpoint int_digits (acc : Z) (after_digit : bool) (s : string) : option Z :=
  match s with
  | EmptyString => if after_digit then Some acc else None
  | String c s' =>
      match digit_of c with
      | Some d => int_digits (10 * acc + d) true s'
      | None =>
          if Ascii.eqb c "_" && after_digit then int_digits acc false s'
          else None
      end
  end.

(** The whitespace [int] skips around the digits, on the code points below
    256: the ASCII ones it tests itself (tab to carriage return, space), and
    the two others that are blanks for Unicode (U+0085, U+00A0), which reach
    it as spaces.  U+001C to U+001F, which [str.strip] removes, are not
    skipped. *)
Definition int_isspace (c : ascii) : bool :=
  let n := N_of_ascii c in
  ((9 <=? n) && (n <=? 13) || (n =? 32) || (n =? 133) || (n =? 160))%N.

Fixpoint lstrip_with (space : ascii -> bool) (s : string) : string :=
  match s with
  | EmptyString => EmptyString
  | String c s' => if space c then lstrip_with space s' else s
  end.

Fixpoint rstrip_with (space : ascii -> bool) (s : string) : string :=
  match s with
  | EmptyString => EmptyString
  | String c s' =>
      match rstrip_with space s' with
      | EmptyString => if space c then EmptyString else String c EmptyString
      | r => String c r
      end
  end.

(** The digits of a text, underscores apart. *)
Fixpoint digit_count (s : string) : nat :=
  match s with
  | EmptyString => O
  | String c s' =>
      match digit_of c with
      | Some _ => S (digit_count s')
      | None => digit_count s'
      end
  end.

(** The limit of [int] on the digits of a text, as the interpreter sets it
    by default. *)
Definition max_str_digits : nat := 4300.

(** The digits after the sign: refused beyond the limit. *)
Definition int_body (s : string) : option Z :=
  if (max_str_digits <? digit_count s)%nat then None
  else int_digits 0 false s.

(** [int(s)] of a str, base 10: surrounding whitespace, an optional sign,
    then the digits. *)
Definition int_of_str (s : string) : option Z :=
  match lstrip_with int_isspace (rstrip_with int_isspace s) with
  | String "-" s' => Z.opp <$> int_body s'
  | String "+" s' => int_body s'
  | s' => int_body s'
  end.

(** [int(f)] of a float truncates toward zero; NaN and the infinities
    raise, each with its own class. *)
Definition int_of_float (f : float) : res Z :=
  match Prim2SF f with
  | S754_nan => Raise (mkExn ValueError "cannot convert float NaN to integer")
  | S754_infinity _ =>
      Raise (mkExn OverflowError "cannot convert float infinity to integer")
  | S754_zero _ => Ok 0
  | S754_finite s m e =>
      let a := Z.shiftl (Zpos m) e in
      Ok (if s then - a else a)
  end.

(** The messages of the [ValueError] and [TypeError] of [int] are never
    observed: the handler replaces them by a text of its own. *)
Definition int (v : value) : res Z :=
  match v with
  | VInt z => Ok z
  | VBool b => Ok (if b then 1 else 0)
  | VFloat f => int_of_float f
  | VStr s =>
      match int_of_str s with
      | Some z => Ok z
      | None => Raise (mkExn ValueError "invalid literal for int() with base 10")
      end
  | VNone | VList _ | VDict _ =>
      Raise (mkExn TypeError "int() argument must be a string or a real number")
  end.

(** *** [float] arithmetic *)

(** [float(n)] of an int: the nearest binary64, ties to even; an int
    beyond the range raises. *)
Definition float_of_int (z : Z) : res float :=
  let f := SF2Prim (binary_normalize prec emax z 0 false) in
  if is_infinity f
  then Raise (mkExn OverflowError "int too large to convert to float")
  else Ok f.

(** The same conversion where it cannot overflow (a small int operand of a
    mixed [int]/[float] operation). *)
Definition to_float (z : Z) : float :=
  SF2Prim (binary_normalize prec emax z 0 false).

(** The integer nearest to [m * 2^e], ties to even, for [m >= 0]. *)
Definition round_half_even (m e : Z) : Z :=
  if 0 <=? e then m * 2 ^ e
  else
    let d := 2 ^ (- e) in
    let q := m / d in
    let r := m mod d in
    match 2 * r ?= d with
    | Lt => q
    | Gt => q + 1
    | Eq => if Z.even q then q else q + 1
    end.

(** [round(x, 2)]: the exact value of [x] is rounded to two decimal places,
    ties to even, and the decimal [n / 100] obtained is converted to the
    nearest binary64.  NaN, the infinities and the zeros round to
    themselves. *)
Definition round2 (x : float) : float :=
  match Prim2SF x with
  | S754_finite s m e =>
      match round_half_even (Zpos m * 100) e with
      | Zpos n =>
          SF2Prim (SFdiv prec emax (S754_finite s n 0) (S754_finite false 100 0))
      | _ => if s then PrimFloat.neg_zero else PrimFloat.zero
      end
  | _ => x
  end.

(** [sum(l)] of floats: from the int 0, left to right (CPython up to 3.11). *)
Definition sum (l : list float) : float :=
  fold_left PrimFloat.add l (to_float 0).

(** CPython from 3.12 on carries a compensation term through the additions
    of [sum] and adds it at the end when it is finite and not zero. *)
Definition compensate (acc : float * float) (x : float) : float * float :=
  let '(f_result, c) := acc in
  let t := (f_result + x)%float in
  (t, if (abs x <=? abs f_result)%float
      then (c + ((f_result - t) + x))%float
      else (c + ((x - t) + f_result))%float).

Definition sum_compensated (l : list float) : float :=
  match l with
  | [] => to_float 0
  | x :: rest =>
      let '(f_result, c) := fold_left compensate rest ((to_float 0 + x)%float, 0%float) in
      if negb (c =? 0)%float && is_finite c then (f_result + c)%float else f_result
  end.

(** [min(l)] and [max(l)] of a non-empty list: the first item is kept until
    a later one compares strictly below (above) it. *)
Definition min_from (best : float) (l : list float) : float :=
  fold_left (fun best item => if (item <? best)%float then item else best) l best.

Definition max_from (best : float) (l : list float) : float :=
  fold_left (fun best item => if (best <? item)%float then item else best) l best.

End Py.

#[export] Instance res_ret : MRet Py.res := @Py.Ok.
#[export] Instance res_bind : MBind Py.res := fun A B k m => Py.bind m k.
#[export] Instance res_fmap : FMap Py.res :=
  fun A B f m => Py.bind m (fun a => Py.Ok (f a)).

(** ** The data of a response *)

(** One entry of ["predictions"]. The key ["error"] is present only on a
    failed period: [error = None] is the absent key. *)
Record Prediction : Type := mkPrediction {
  period : Z;
  year : Z;
  month : Z;
  date : string;
  predicted_price : option float;
  currency : string;
  error : option string
}.

Record Statistics : Type := mkStatistics {
  min_price : option float;
  max_price : option float;
  avg_price : option float;
  price_trend : string
}.

Record InputParameters : Type := mkInputParameters {
  product_type : string;
  tg_code : string;
  country_region : string;
  country : string;
  industry : string
}.

(** The dict built by [generate_predictions]; ["success"] is [True] in it.
    The key ["note"] is added only by the simulation. *)
Record PredictionResult : Type := mkPredictionResult {
  model_used : string;
  horizon_window : Z;
  total_predictions : Z;
  successful_predictions : Z;
  failed_predictions : Z;
  input_parameters : InputParameters;
  price_statistics : Statistics;
  predictions : list Prediction;
  timestamp : string;
  note : option string
}.

(** What [process_prediction_request] returns: the failure dict
    [{"success": False, "error": ..., "timestamp": ...}] or the result. *)
Inductive response : Type :=
| Failure (error : string) (timestamp : string)
| Success (result : PredictionResult).

Definition success (r : response) : bool :=
  match r with
  | Failure _ _ => false
  | Success _ => true
  end.

(** What [predict_single_item] gives back: a number or [None]. *)
Inductive model_value : Type :=
| MNone
| MInt (z : Z)
| MFloat (f : float).

Definition truthy (v : model_value) : bool :=
  match v with
  | MNone => false
  | MInt z => negb (z =? 0)
  | MFloat f => negb (f =? 0)%float
  end.

(** [float(v)] *)
Definition float_of (v : model_value) : Py.res float :=
  match v with
  | MNone => Py.Raise (Py.mkExn Py.TypeError "float() argument must be a string or a real number")
  | MInt z => Py.float_of_int z
  | MFloat f => Py.Ok f
  end.

(** ** The handler *)

Section Handler.

(** The flag set once by the import at the top of the module. *)
Variable MODEL_LOADED : bool.

(** The collaborator [model.predict_single_item]: it may keep a state of
    its own, return a value or raise. *)
Variable model_state : Type.
Variable predict_single_item :
  string -> string -> string -> string -> string -> Z -> Z ->
  model_state -> Py.res model_value * model_state.

Definition base_price : float := 20.0%float.

(** Lines 200-213: what the [try] around the call leaves in
    [price_value], given what the call did. *)
Definition model_price (reply : Py.res model_value) : option float :=
  let attempt : Py.res (option float) :=
    predicted_price ← reply;
    if truthy predicted_price then Some <$> float_of predicted_price
    else mret None in
  match attempt with
  | Py.Ok price_value => price_value
  | Py.Raise _ => None
  end.

(** Line 216 *)
Definition simulated_price (month_offset : Z) : float :=
  Py.round2 (base_price + Py.to_float month_offset * 0.5)%float.

(** Lines 198-216: the price of one period, [None] on a failed one. *)
Definition price_value_of (product_type tg_code country_region country industry : string)
    (month_offset year month : Z) (st : model_state) : option float * model_state :=
  if MODEL_LOADED then
    let '(reply, st') :=
      predict_single_item product_type tg_code country_region country industry
        year month st in
    (model_price reply, st')
  else
    (Some (simulated_price month_offset), st).

(** Lines 219-230: the dict of one period. *)
Definition prediction_of (month_offset year month : Z) (price_value : option float)
    : Prediction :=
  mkPrediction (month_offset + 1) year month
    (Py.str_of_int year +:+ "-" +:+ Py.format_02d month)
    price_value "USD"
    (match price_value with
     | None => Some "Prediction failed for this period"
     | Some _ => None
     end).

(** Lines 192-195 *)
Definition year_of (month_offset : Z) : Z :=
  let year := 2024 in
  year + month_offset / 12.

Definition month_of (month_offset : Z) : Z := month_offset mod 12 + 1.

(** Lines 192-232: the body of the loop, for one [month_offset]. *)
Definition predict_period (product_type tg_code country_region country industry : string)
    (month_offset : Z) (st : model_state) : Prediction * model_state :=
  let month := month_of month_offset in
  let year := year_of month_offset in
  let '(price_value, st') :=
    price_value_of product_type tg_code country_region country industry
      month_offset year month st in
  (prediction_of month_offset year month price_value, st').

(** Lines 188-232: the loop, appending to [predictions]. *)
Fixpoint predict_loop (product_type tg_code country_region country industry : string)
    (offsets : list Z) (predictions : list Prediction) (st : model_state)
    : list Prediction * model_state :=
  match offsets with
  | [] => (predictions, st)
  | month_offset :: rest =>
      let '(prediction, st') :=
        predict_period product_type tg_code country_region country industry
          month_offset st in
      predict_loop product_type tg_code country_region country industry
        rest (predictions ++ [prediction]) st'
  end.

(** The dict of the period of [month_offset], given its price. *)
Definition entry (month_offset : Z) (price_value : option float) : Prediction :=
  prediction_of month_offset (year_of month_offset) (month_of month_offset) price_value.

(** The prices the loop obtains, one per [month_offset], in order. *)
Fixpoint prices_along (product_type tg_code country_region country industry : string)
    (offsets : list Z) (st : model_state) : list (option float) :=
  match offsets with
  | [] => []
  | month_offset :: rest =>
      let '(price_value, st') :=
        price_value_of product_type tg_code country_region country industry
          month_offset (year_of month_offset) (month_of month_offset) st in
      price_value ::
      prices_along product_type tg_code country_region country industry rest st'
  end.

Definition has_price (p : Prediction) : bool :=
  match predicted_price p with
  | Some _ => true
  | None => false
  end.

(** Line 235 *)
Definition successful_of (predictions : list Prediction) : list Prediction :=
  List.filter has_price predictions.

(** Line 238 *)
Definition prices_of (successful : list Prediction) : list float :=
  omap predicted_price successful.

(** Lines 243-245 *)
Definition trend_of (prices : list float) (first last : float) : string :=
  if (1 <? Py.len prices) && (first <? last)%float then "increasing"
  else if (1 <? Py.len prices) && (last <? first)%float then "decreasing"
  else "stable".

(** Lines 235-253 *)
Definition statistics_of (predictions : list Prediction) : Statistics :=
  let successful := successful_of predictions in
  match prices_of successful with
  | first :: rest =>
      let prices := first :: rest in
      mkStatistics
        (Some (Py.min_from first rest))
        (Some (Py.max_from first rest))
        (Some (Py.round2 (Py.sum prices / Py.to_float (Py.len prices))%float))
        (trend_of prices first (List.last prices first))
  | [] => mkStatistics None None None "unknown"
  end.

(** [generate_predictions]; [now] is what [datetime.now().isoformat()]
    reads at line 272. *)
Definition generate_predictions (now : string)
    (product_type tg_code country_region country industry : string)
    (horizon_window : Z) (st : model_state) : PredictionResult * model_state :=
  let '(predictions, st') :=
    predict_loop product_type tg_code country_region country industry
      (Py.range horizon_window) [] st in
  let successful := successful_of predictions in
  let statistics := statistics_of predictions in
  (mkPredictionResult
     (if MODEL_LOADED then "tensorflow" else "simulation")
     horizon_window
     (Py.len predictions)
     (Py.len successful)
     (Py.len predictions - Py.len successful)
     (mkInputParameters product_type tg_code country_region country industry)
     statistics
     predictions
     now
     (if negb MODEL_LOADED
      then Some "Using simulated data. Deploy with model files for real predictions."
      else None),
   st').

(** Lines 121-131 *)
Definition missing_params_of
    (product_type tg_code country_region country industry : string) : list string :=
  let missing_params := [] in
  let missing_params :=
    if negb (Py.str_truthy product_type)
    then missing_params ++ ["product_type"] else missing_params in
  let missing_params :=
    if negb (Py.str_truthy tg_code)
    then missing_params ++ ["tg_code"] else missing_params in
  let missing_params :=
    if negb (Py.str_truthy country_region)
    then missing_params ++ ["country_region"] else missing_params in
  let missing_params :=
    if negb (Py.str_truthy country)
    then missing_params ++ ["country"] else missing_params in
  let missing_params :=
    if negb (Py.str_truthy industry)
    then missing_params ++ ["industry"] else missing_params in
  missing_params.

(** Lines 112-162, the body of the outer [try]: [now] is what
    [datetime.now().isoformat()] reads on the path taken (each path reads
    the clock once). *)
Definition process_body (now : string) (data : Py.value) (st : model_state)
    : Py.res (response * model_state) :=
  product_type ← Py.get data "product_type" (Py.VStr "") ≫= Py.strip;
  tg_code ← Py.get data "tg_code" (Py.VStr "") ≫= Py.strip;
  country_region ← Py.get data "country_region" (Py.VStr "") ≫= Py.strip;
  country ← Py.get data "country" (Py.VStr "") ≫= Py.strip;
  industry ← Py.get data "industry" (Py.VStr "") ≫= Py.strip;
  horizon_window ← Py.get data "horizon_window" (Py.VInt 1);
  let missing_params :=
    missing_params_of product_type tg_code country_region country industry in
  match missing_params with
  | _ :: _ =>
      mret (Failure ("Missing required parameters: " +:+ Py.join ", " missing_params)
              now, st)
  | [] =>
      match Py.int horizon_window with
      | Py.Ok horizon_window =>
          if (horizon_window <? 1) || (24 <? horizon_window)
          then mret (Failure "horizon_window must be between 1 and 24 months" now, st)
          else
            let '(predictions, st') :=
              generate_predictions now product_type tg_code country_region
                country industry horizon_window st in
            mret (Success predictions, st')
      | Py.Raise e =>
          match Py.cls e with
          | Py.ValueError | Py.TypeError =>
              mret (Failure "horizon_window must be a valid integer" now, st)
          | _ => Py.Raise e
          end
      end
  end.

(** [process_prediction_request], lines 111-169. *)
Definition process_prediction_request (now : string) (data : Py.value)
    (st : model_state) : response * model_state :=
  match process_body now data st with
  | Py.Ok r => r
  | Py.Raise e => (Failure ("Prediction processing error: " +:+ Py.msg e) now, st)
  end.

End Handler.

(** ** Notions used in the statements *)

Definition identity_keys : list string :=
  ["product_type"; "tg_code"; "country_region"; "country"; "industry"].

(** The key holds a text that trims to the non-empty [s]. *)
Definition text_field (d : gmap string Py.value) (key s : string) : Prop :=
  exists raw, d !! key = Some (Py.VStr raw) /\ Py.str_strip raw = s /\ s <> "".

(** All five identity fields are present; [i] is their trimmed text. *)
Definition identity_fields (d : gmap string Py.value) (i : InputParameters) : Prop :=
  text_field d "product_type" (product_type i) /\
  text_field d "tg_code" (tg_code i) /\
  text_field d "country_region" (country_region i) /\
  text_field d "country" (country i) /\
  text_field d "industry" (industry i).

(** The value [data.get("horizon_window", 1)] reads. *)
Definition horizon_of (d : gmap string Py.value) : Py.value :=
  default (Py.VInt 1) (d !! "horizon_window").

(** A valid request: the identity fields are present and the horizon is an
    integer (given, or the default) between 1 and 24. *)
Definition valid_request (d : gmap string Py.value) (i : InputParameters) (h : Z) : Prop :=
  identity_fields d i /\ horizon_of d = Py.VInt h /\ 1 <= h <= 24.

(** Each identity field is absent or a text. *)
Definition text_or_absent (d : gmap string Py.value) : Prop :=
  forall key, In key identity_keys ->
    d !! key = None \/ exists raw, d !! key = Some (Py.VStr raw).

(** The field is absent or trims to the empty text. *)
Definition blank (d : gmap string Py.value) (key : string) : bool :=
  match d !! key with
  | None => true
  | Some (Py.VStr raw) => String.eqb (Py.str_strip raw) ""
  | Some _ => false
  end.

(** The trimmed text of a field, empty for an absent one. *)
Definition field_text (d : gmap string Py.value) (key : string) : string :=
  match d !! key with
  | Some (Py.VStr raw) => Py.str_strip raw
  | _ => ""
  end.

(** The names of the blank identity fields, in the order of the keys. *)
Definition missing_fields (d : gmap string Py.value) : list string :=
  List.filter (blank d) identity_keys.

(** The label ["YYYY-MM"]: four decimal digits, a hyphen, two decimal digits. *)
Definition digit_char (n : Z) : ascii := ascii_of_N (48 + Z.to_N (n mod 10)).

Definition yyyy_mm (y m : Z) : string :=
  String (digit_char (y / 1000)) (String (digit_char (y / 100))
    (String (digit_char (y / 10)) (String (digit_char y)
      (String "-" (String (digit_char (m / 10)) (String (digit_char m) "")))))).

(** A float that is a number. *)
Definition is_number (f : float) : Prop := is_nan f = false.

(** [x <= y] on floats *)
Definition fle (x y : float) : Prop := (x <=? y)%float = true.

(** [total] is the sum of the prices: from 0, each price added in turn to
    the sum of those before it. *)
Inductive running_total : list float -> float -> Prop :=
| running_total_nil : running_total [] 0%float
| running_total_snoc (l : list float) (x total : float) :
    running_total l total -> running_total (l ++ [x]) (total + x)%float.

(** [n] is the integer nearest to [m * 2^e], and the even one of the two
    nearest when [m * 2^e] lies halfway between them. *)
Definition nearest_even (m e n : Z) : Prop :=
  0 <= n /\
  (0 <= e -> n = m * 2 ^ e) /\
  (e < 0 ->
   Z.abs (2 * m - 2 * n * 2 ^ (- e)) <= 2 ^ (- e) /\
   (Z.abs (2 * m - 2 * n * 2 ^ (- e)) = 2 ^ (- e) -> Z.even n = true)).

(** The binary64 nearest to [n / 100], of sign [s]: the quotient of the
    integers [n] and 100, by the division of the specification of binary64. *)
Definition hundredths (s : bool) (n : positive) : float :=
  SF2Prim (SFdiv prec emax (S754_finite s n 0) (S754_finite false 100 0)).

(** [r] is [x] rounded to two decimal places: for [x] of sign [s] and
    absolute value [m * 2^e], the binary64 nearest to [n / 100] where [n] is
    the integer nearest to [100 * m * 2^e], ties to even; a zero, an infinity
    and NaN round to themselves. *)
Definition rounded_to_hundredths (x r : float) : Prop :=
  match Prim2SF x with
  | S754_finite s m e =>
      exists n, nearest_even (Zpos m * 100) e n /\
        r = match n with
            | Zpos p => hundredths s p
            | _ => if s then PrimFloat.neg_zero else PrimFloat.zero
            end
  | _ => r = x
  end.

(** The two quotients by 100 agree, from [p] on for [k] integers. *)
Definition quotient_agrees (p : positive) : bool :=
  PrimFloat.Leibniz.eqb (hundredths false p) (Py.to_float (Zpos p) / 100)%float
  && PrimFloat.Leibniz.eqb (hundredths true p) (Py.to_float (Zneg p) / 100)%float.

Fixpoint quotients_agree (k : nat) (p : positive) : bool :=
  match k with
  | O => true
  | S k' => quotient_agrees p && quotients_agree k' (Pos.succ p)
  end.

(** The result with the reading of the clock replaced by [t]. *)
Definition at_time (t : string) (r : PredictionResult) : PredictionResult :=
  mkPredictionResult (model_used r) (horizon_window r) (total_predictions r)
    (successful_predictions r) (failed_predictions r) (input_parameters r)
    (price_statistics r) (predictions r) t (note r).

Section Collaborator.

Variable model_state : Type.
Variable predict_single_item :
  string -> string -> string -> string -> string -> Z -> Z ->
  model_state -> Py.res model_value * model_state.

(** What the collaborator does at each call of the loop, in order: the
    call for [month_offset] is made in the state the earlier calls left. *)
Fixpoint replies (i : InputParameters) (offsets : list Z) (st : model_state)
    : list (Py.res model_value) :=
  match offsets with
  | [] => []
  | month_offset :: rest =>
      let '(reply, st') :=
        predict_single_item (product_type i) (tg_code i) (country_region i)
          (country i) (industry i) (year_of month_offset) (month_of month_offset) st in
      reply :: replies i rest st'
  end.

(** The call failed: it raised, or it returned no value. *)
Definition failed_reply (reply : Py.res model_value) : Prop :=
  match reply with
  | Py.Raise _ => True
  | Py.Ok MNone => True
  | Py.Ok _ => False
  end.

End Collaborator.

(** A process without the model: the import at the top failed, and
    [predict_single_item] is not bound. *)
Definition no_model : string -> string -> string -> string -> string -> Z -> Z ->
    unit -> Py.res model_value * unit :=
  fun _ _ _ _ _ _ _ st =>
    (Py.Raise (Py.mkExn Py.OtherException "name 'predict_single_item' is not defined"), st).

(** ** Sample requests *)

Definition sample_input : InputParameters :=
  mkInputParameters "steel" "TG-100" "Europe" "Germany" "automotive".

Definition sample_identity : list (string * Py.value) :=
  [("product_type", Py.VStr " steel "); ("tg_code", Py.VStr "TG-100");
   ("country_region", Py.VStr "Europe"); ("country", Py.VStr "Germany");
   ("industry", Py.VStr "automotive")].

(** A request with the sample identity and the [extra] keys. *)
Definition sample_payload (extra : list (string * Py.value)) : gmap string Py.value :=
  list_to_map (extra ++ sample_identity).

(** The sample request with the horizon [hw]. *)
Definition request_of (hw : Py.value) : gmap string Py.value :=
  sample_payload [("horizon_window", hw)].

(** A request without ["product_type"], with a blank ["country"] and with a
    horizon that is not a number. *)
Definition incomplete_request : gmap string Py.value :=
  list_to_map
    [("tg_code", Py.VStr "TG-100"); ("country_region", Py.VStr "Europe");
     ("country", Py.VStr "  "); ("industry", Py.VStr "automotive");
     ("horizon_window", Py.VStr "abc")].

(** A request without ["tg_code"], whose ["product_type"] is null and whose
    horizon is out of range. *)
Definition null_field_request : gmap string Py.value :=
  list_to_map
    [("product_type", Py.VNone); ("country_region", Py.VStr "Europe");
     ("country", Py.VStr "Germany"); ("industry", Py.VStr "automotive");
     ("horizon_window", Py.VInt 0)].

(** A request whose ["tg_code"] is a number. *)
Definition mistyped_request : gmap string Py.value :=
  <["tg_code" := Py.VInt 5]> (request_of (Py.VInt 3)).

Definition sample_now : string := "2026-11-03T09:30:00.000125".
Definition sample_later : string := "2026-11-03T09:30:00.004310".

(** A collaborator that counts its calls: the second one raises, the third
    returns no value, the fourth returns the int 0, the others a price. *)
Definition flaky_model : string -> string -> string -> string -> string -> Z -> Z ->
    Z -> Py.res model_value * Z :=
  fun _ _ _ _ _ _ month calls =>
    (if calls =? 1 then Py.Raise (Py.mkExn Py.OtherException "model failure")
     else if calls =? 2 then Py.Ok MNone
     else if calls =? 3 then Py.Ok (MInt 0)
     else Py.Ok (MFloat (21.5 + Py.to_float month)%float),
     calls + 1).

(** ** Notions used in the further statements *)

(** Only whitespace. *)
Fixpoint all_space (s : string) : bool :=
  match s with
  | EmptyString => true
  | String c s' => Py.isspace c && all_space s'
  end.

Definition first_char (s : string) : option ascii :=
  match s with
  | EmptyString => None
  | String c _ => Some c
  end.

Fixpoint last_char (s : string) : option ascii :=
  match s with
  | EmptyString => None
  | String c EmptyString => Some c
  | String _ s' => last_char s'
  end.

(** Neither the first nor the last character is whitespace. *)
Definition trimmed (s : string) : Prop :=
  (forall c, first_char s = Some c -> Py.isspace c = false) /\
  (forall c, last_char s = Some c -> Py.isspace c = false).

(** The identity of a request, key by key. *)
Definition identity_items (i : InputParameters) : list (string * string) :=
  [("product_type", product_type i); ("tg_code", tg_code i);
   ("country_region", country_region i); ("country", country i);
   ("industry", industry i)].

Definition has_error (p : Prediction) : bool :=
  match error p with
  | Some _ => true
  | None => false
  end.

(** The number a sequence of decimal digits denotes, after the digits
    already read as [acc]. *)
Fixpoint digits_value (acc : N) (d : Decimal.uint) : N :=
  match d with
  | Decimal.Nil => acc
  | Decimal.D0 l => digits_value (acc * 10 + 0) l
  | Decimal.D1 l => digits_value (acc * 10 + 1) l
  | Decimal.D2 l => digits_value (acc * 10 + 2) l
  | Decimal.D3 l => digits_value (acc * 10 + 3) l
  | Decimal.D4 l => digits_value (acc * 10 + 4) l
  | Decimal.D5 l => digits_value (acc * 10 + 5) l
  | Decimal.D6 l => digits_value (acc * 10 + 6) l
  | Decimal.D7 l => digits_value (acc * 10 + 7) l
  | Decimal.D8 l => digits_value (acc * 10 + 8) l
  | Decimal.D9 l => digits_value (acc * 10 + 9) l
  end.

(** Only characters that [space] holds of. *)
Fixpoint all_with (space : ascii -> bool) (s : string) : bool :=
  match s with
  | EmptyString => true
  | String c s' => space c && all_with space s'
  end.

(** Only whitespace that [int] skips. *)
Definition int_padding (s : string) : bool := all_with Py.int_isspace s.

(** Only decimal digits. *)
Fixpoint all_digits (s : string) : bool :=
  match s with
  | EmptyString => true
  | String c s' =>
      match Py.digit_of c with
      | Some _ => all_digits s'
      | None => false
      end
  end.

(** ** The health information of [do_GET] *)

(** The dict [health_info] of lines 38-63; [now] is what
    [datetime.now().isoformat()] reads at line 43. *)
Definition health_info (MODEL_LOADED : bool) (now : string) : Py.value :=
  Py.VDict (list_to_map
    [("status", Py.VStr "healthy");
     ("service", Py.VStr "MPI Price Predictor API");
     ("version", Py.VStr "1.0.0");
     ("model_loaded", Py.VBool MODEL_LOADED);
     ("timestamp", Py.VStr now);
     ("endpoints", Py.VDict (list_to_map
        [("GET /", Py.VStr "Health check and API information");
         ("POST /", Py.VStr "Make price predictions");
         ("OPTIONS /", Py.VStr "CORS preflight")]));
     ("usage", Py.VDict (list_to_map
        [("method", Py.VStr "POST");
         ("content_type", Py.VStr "application/json");
         ("required_fields", Py.VList
            [Py.VStr "product_type"; Py.VStr "tg_code"; Py.VStr "country_region";
             Py.VStr "country"; Py.VStr "industry"]);
         ("optional_fields", Py.VDict (list_to_map
            [("horizon_window",
              Py.VStr "Number of months to predict (default: 1)")]))]))]).

(** [v[key]] of a dict, when the key is there. *)
Definition item (v : Py.value) (key : string) : option Py.value :=
  match v with
  | Py.VDict d => d !! key
  | _ => None
  end.

(** The texts of a list. *)
Definition texts (v : Py.value) : list string :=
  match v with
  | Py.VList l =>
      omap (fun x => match x with Py.VStr s => Some s | _ => None end) l
  | _ => []
  end.

(** [info["usage"]["required_fields"]] *)
Definition advertised_required (info : Py.value) : list string :=
  match usage ← item info "usage"; item usage "required_fields" with
  | Some fields => texts fields
  | None => []
  end.

(** [info["usage"]["optional_fields"]] has the key. *)
Definition advertised_optional (info : Py.value) (key : string) : bool :=
  match usage ← item info "usage";
        optional ← item usage "optional_fields";
        item optional key with
  | Some _ => true
  | None => false
  end.

(** A collaborator that records the calls made to it. *)
Definition recording_model : string -> string -> string -> string -> string -> Z -> Z ->
    list (string * string * Z * Z) ->
    Py.res model_value * list (string * string * Z * Z) :=
  fun product_type tg_code _ _ _ year month calls =>
    (Py.Ok (MFloat 21.5%float), calls ++ [(product_type, tg_code, year, month)]).

(** The identity fields of a sample request, and its validity, by
    evaluation. *)
Ltac sample_text_field :=
  eexists; split; [reflexivity|split; [reflexivity|discriminate]].

Ltac sample_identity :=
  repeat split; try sample_text_field.

Ltac sample_valid :=
  split; [sample_identity|split; [reflexivity|lia]].

(** ** Order of the floats *)

Section FloatOrder.

Lemma SFltb_irrefl (x : spec_float) : SFltb x x = false.
Proof.
  unfold SFltb, SFcompare.
  destruct x as [s|s| |s m e]; try destruct s; try reflexivity;
    rewrite Z.compare_refl; change (Pos.compare_cont Eq m m) with (Pos.compare m m);
    rewrite Pos.compare_refl; reflexivity.
Qed.

Lemma SFltb_trans (x y z : spec_float) :
  SFltb x y = true -> SFltb y z = true -> SFltb x z = true.
Proof.
  unfold SFltb, SFcompare.
  destruct x as [sx|sx| |sx mx ex], y as [sy|sy| |sy my ey], z as [sz|sz| |sz mz ez];
    try destruct sx; try destruct sy; try destruct sz;
    try discriminate; try reflexivity;
    change (Pos.compare_cont Eq) with Pos.compare;
    destruct (Z.compare_spec ex ey), (Z.compare_spec ey ez), (Z.compare_spec ex ez);
    try discriminate; try reflexivity; try lia;
    destruct (Pos.compare_spec mx my), (Pos.compare_spec my mz), (Pos.compare_spec mx mz);
    simpl; try discriminate; try reflexivity; try lia.
Qed.

Lemma ltb_irrefl (x : float) : (x <? x)%float = false.
Proof. rewrite ltb_spec. apply SFltb_irrefl. Qed.

Lemma ltb_trans (x y z : float) :
  (x <? y)%float = true -> (y <? z)%float = true -> (x <? z)%float = true.
Proof. rewrite !ltb_spec. apply SFltb_trans. Qed.

Lemma not_ltb_leb (x y : float) :
  is_nan x = false -> is_nan y = false -> (x <? y)%float = false -> (y <=? x)%float = true.
Proof.
  unfold is_nan. rewrite !FloatAxioms.eqb_spec, ltb_spec, leb_spec.
  unfold SFeqb, SFltb, SFleb, SFcompare.
  destruct (Prim2SF x) as [sx|sx| |sx mx ex], (Prim2SF y) as [sy|sy| |sy my ey];
    try destruct sx; try destruct sy; try discriminate; try reflexivity;
    change (Pos.compare_cont Eq) with Pos.compare;
    rewrite (Z.compare_antisym ex ey), (Pos.compare_antisym mx my);
    destruct (ex ?= ey); simpl; try discriminate; try reflexivity;
    destruct (mx ?= my)%positive; simpl; try discriminate; reflexivity.
Qed.
End FloatOrder.

(** ** [min] and [max] *)

Section MinMax.

Lemma min_from_below (l seen : list float) (best : float) :
  (forall p, In p seen -> (p <? best)%float = false) ->
  forall p, In p (seen ++ l) -> (p <? Py.min_from best l)%float = false.
Proof.
  revert seen best. induction l as [|item l IH]; intros seen best Hseen p Hp.
  - rewrite app_nil_r in Hp. apply Hseen, Hp.
  - simpl. apply (IH (seen ++ [item])).
    + intros q Hq. apply in_app_or in Hq as [Hq|[<-|[]]].
      * destruct (item <? best)%float eqn:Hlt; [|apply Hseen, Hq].
        destruct (q <? item)%float eqn:Hqi; [|reflexivity].
        rewrite <- (Hseen q Hq). symmetry. eapply ltb_trans; eassumption.
      * destruct (item <? best)%float eqn:Hlt; [apply ltb_irrefl|exact Hlt].
    + rewrite <- app_assoc. exact Hp.
Qed.

Lemma max_from_above (l seen : list float) (best : float) :
  (forall p, In p seen -> (best <? p)%float = false) ->
  forall p, In p (seen ++ l) -> (Py.max_from best l <? p)%float = false.
Proof.
  revert seen best. induction l as [|item l IH]; intros seen best Hseen p Hp.
  - rewrite app_nil_r in Hp. apply Hseen, Hp.
  - simpl. apply (IH (seen ++ [item])).
    + intros q Hq. apply in_app_or in Hq as [Hq|[<-|[]]].
      * destruct (best <? item)%float eqn:Hlt; [|apply Hseen, Hq].
        destruct (item <? q)%float eqn:Hqi; [|reflexivity].
        rewrite <- (Hseen q Hq). symmetry. eapply ltb_trans; eassumption.
      * destruct (best <? item)%float eqn:Hlt; [apply ltb_irrefl|exact Hlt].
    + rewrite <- app_assoc. exact Hp.
Qed.

Lemma min_from_In (l : list float) (best : float) :
  In (Py.min_from best l) (best :: l).
Proof.
  revert best. induction l as [|item l IH]; intros best; [left; reflexivity|].
  simpl. specialize (IH (if (item <? best)%float then item else best)).
  destruct IH as [IH|IH]; [|right; right; exact IH].
  unfold Py.min_from in IH |- *. simpl in IH. rewrite <- IH.
  destruct (item <? best)%float; [right; left|left]; reflexivity.
Qed.

Lemma max_from_In (l : list float) (best : float) :
  In (Py.max_from best l) (best :: l).
Proof.
  revert best. induction l as [|item l IH]; intros best; [left; reflexivity|].
  simpl. specialize (IH (if (best <? item)%float then item else best)).
  destruct IH as [IH|IH]; [|right; right; exact IH].
  unfold Py.max_from in IH |- *. simpl in IH. rewrite <- IH.
  destruct (best <? item)%float; [right; left|left]; reflexivity.
Qed.

Lemma min_from_minimal (first : float) (rest : list float) (p : float) :
  In p (first :: rest) -> (p <? Py.min_from first rest)%float = false.
Proof.
  intros Hp. apply (min_from_below rest [first] first); [|exact Hp].
  intros q [<-|[]]. apply ltb_irrefl.
Qed.

Lemma max_from_maximal (first : float) (rest : list float) (p : float) :
  In p (first :: rest) -> (Py.max_from first rest <? p)%float = false.
Proof.
  intros Hp. apply (max_from_above rest [first] first); [|exact Hp].
  intros q [<-|[]]. apply ltb_irrefl.
Qed.

End MinMax.

(** ** The loop of [generate_predictions] *)

Section Loop.

Context (MODEL_LOADED : bool) (model_state : Type).
Context (predict_single_item :
  string -> string -> string -> string -> string -> Z -> Z ->
  model_state -> Py.res model_value * model_state).

#[local] Abbreviation loop := (predict_loop MODEL_LOADED model_state predict_single_item).
#[local] Abbreviation along := (prices_along MODEL_LOADED model_state predict_single_item).
#[local] Abbreviation generate :=
  (generate_predictions MODEL_LOADED model_state predict_single_item).

Lemma predict_loop_entries (pt tg cr c ind : string) (offsets : list Z)
    (acc : list Prediction) (st : model_state) :
  fst (loop pt tg cr c ind offsets acc st)
  = acc ++ zip_with entry offsets (along pt tg cr c ind offsets st).
Proof.
  revert acc st. induction offsets as [|o offsets IH]; intros acc st; simpl.
  - now rewrite app_nil_r.
  - unfold predict_period.
    destruct (price_value_of _ _ _ _ _ _ _ _ _ _ _ st) as [pv st'].
    rewrite IH, <- app_assoc. reflexivity.
Qed.

Lemma prices_along_length (pt tg cr c ind : string) (offsets : list Z) (st : model_state) :
  length (along pt tg cr c ind offsets st) = length offsets.
Proof.
  revert st. induction offsets as [|o offsets IH]; intros st; simpl; [reflexivity|].
  destruct (price_value_of _ _ _ _ _ _ _ _ _ _ _ st) as [pv st'].
  simpl. now rewrite IH.
Qed.

Lemma prices_along_model (i : InputParameters) (offsets : list Z) (st : model_state) :
  MODEL_LOADED = true ->
  along (product_type i) (tg_code i) (country_region i) (country i) (industry i) offsets st
  = map (model_price) (replies model_state predict_single_item i offsets st).
Proof.
  intros ->. revert st. induction offsets as [|o offsets IH]; intros st; simpl; [reflexivity|].
  destruct (predict_single_item _ _ _ _ _ _ _ st) as [reply st'].
  simpl. now rewrite IH.
Qed.

Lemma prices_along_simulation (pt tg cr c ind : string) (offsets : list Z) (st : model_state) :
  MODEL_LOADED = false ->
  along pt tg cr c ind offsets st = map (fun o => Some (simulated_price o)) offsets.
Proof.
  intros ->. revert st. induction offsets as [|o offsets IH]; intros st; simpl; [reflexivity|].
  now rewrite IH.
Qed.

Lemma generate_predictions_entries (now pt tg cr c ind : string) (h : Z) (st : model_state) :
  predictions (fst (generate now pt tg cr c ind h st))
  = zip_with entry (Py.range h) (along pt tg cr c ind (Py.range h) st).
Proof.
  unfold generate_predictions.
  pose proof (predict_loop_entries pt tg cr c ind (Py.range h) [] st) as H.
  destruct (loop pt tg cr c ind (Py.range h) [] st) as [ps st']. simpl in *.
  exact H.
Qed.

(** The result, field by field, from the entries of the loop. *)
Lemma generate_predictions_result (now pt tg cr c ind : string) (h : Z) (st : model_state) :
  fst (generate now pt tg cr c ind h st)
  = let predictions := zip_with entry (Py.range h) (along pt tg cr c ind (Py.range h) st) in
    mkPredictionResult
      (if MODEL_LOADED then "tensorflow" else "simulation")
      h
      (Py.len predictions)
      (Py.len (successful_of predictions))
      (Py.len predictions - Py.len (successful_of predictions))
      (mkInputParameters pt tg cr c ind)
      (statistics_of predictions)
      predictions
      now
      (if negb MODEL_LOADED
       then Some "Using simulated data. Deploy with model files for real predictions."
       else None).
Proof.
  unfold generate_predictions.
  pose proof (predict_loop_entries pt tg cr c ind (Py.range h) [] st) as H.
  destruct (loop pt tg cr c ind (Py.range h) [] st) as [ps st']. simpl in *.
  subst ps. reflexivity.
Qed.

Lemma replies_lookup_price (i : InputParameters) (offsets : list Z) (st : model_state)
    (n : nat) (reply : Py.res model_value) :
  MODEL_LOADED = true ->
  replies model_state predict_single_item i offsets st !! n = Some reply ->
  along (product_type i) (tg_code i) (country_region i) (country i) (industry i) offsets st
    !! n = Some (model_price reply).
Proof.
  intros HM Hn. rewrite (prices_along_model i offsets st HM), list_lookup_fmap, Hn.
  reflexivity.
Qed.

Lemma replies_length (i : InputParameters) (offsets : list Z) (st : model_state) :
  length (replies model_state predict_single_item i offsets st) = length offsets.
Proof.
  revert st. induction offsets as [|o offsets IH]; intros st; simpl; [reflexivity|].
  destruct (predict_single_item _ _ _ _ _ _ _ st) as [reply st'].
  simpl. now rewrite IH.
Qed.

Lemma model_price_failed (reply : Py.res model_value) :
  failed_reply reply -> model_price reply = None.
Proof. destruct reply as [[| |]|]; simpl; intros H; solve [reflexivity|contradiction]. Qed.

Lemma model_price_falsy (v : model_value) :
  truthy v = false -> model_price (Py.Ok v) = None.
Proof. intros H. unfold model_price. simpl. rewrite H. reflexivity. Qed.

Lemma model_price_float (f : float) :
  truthy (MFloat f) = true -> model_price (Py.Ok (MFloat f)) = Some f.
Proof. intros H. unfold model_price. simpl in *. rewrite H. reflexivity. Qed.

End Loop.

(** ** Validation *)

Section Validation.

Context (MODEL_LOADED : bool) (model_state : Type).
Context (predict_single_item :
  string -> string -> string -> string -> string -> Z -> Z ->
  model_state -> Py.res model_value * model_state).

#[local] Abbreviation process :=
  (process_prediction_request MODEL_LOADED model_state predict_single_item).
#[local] Abbreviation generate :=
  (generate_predictions MODEL_LOADED model_state predict_single_item).

Lemma str_truthy_nonempty (s : string) : s <> "" -> Py.str_truthy s = true.
Proof. destruct s; [congruence|reflexivity]. Qed.

Lemma get_strip_text_field (d : gmap string Py.value) (key s : string) :
  text_field d key s ->
  Py.get (Py.VDict d) key (Py.VStr "") ≫= Py.strip = Py.Ok s.
Proof. intros (raw & Hd & <- & _). simpl. rewrite Hd. reflexivity. Qed.

Lemma missing_params_none (i : InputParameters) (d : gmap string Py.value) :
  identity_fields d i ->
  missing_params_of (product_type i) (tg_code i) (country_region i) (country i)
    (industry i) = [].
Proof.
  intros ((? & _ & _ & H1) & (? & _ & _ & H2) & (? & _ & _ & H3)
          & (? & _ & _ & H4) & (? & _ & _ & H5)).
  unfold missing_params_of.
  now rewrite !str_truthy_nonempty.
Qed.

(** With the identity fields present, the outcome is decided by [int] of
    the horizon alone. *)
Lemma process_identity_present (now : string) (d : gmap string Py.value)
    (i : InputParameters) (st : model_state) :
  identity_fields d i ->
  process now (Py.VDict d) st =
  match Py.int (horizon_of d) with
  | Py.Ok h =>
      if (h <? 1) || (24 <? h)
      then (Failure "horizon_window must be between 1 and 24 months" now, st)
      else
        let '(r, st') :=
          generate now (product_type i) (tg_code i) (country_region i) (country i)
            (industry i) h st in
        (Success r, st')
  | Py.Raise e =>
      match Py.cls e with
      | Py.ValueError | Py.TypeError =>
          (Failure "horizon_window must be a valid integer" now, st)
      | _ => (Failure ("Prediction processing error: " +:+ Py.msg e) now, st)
      end
  end.
Proof.
  intros Hi. pose proof (missing_params_none i d Hi) as Hm.
  destruct Hi as (H1 & H2 & H3 & H4 & H5).
  unfold process_prediction_request, process_body.
  rewrite (get_strip_text_field _ _ _ H1). cbn [mbind res_bind Py.bind].
  rewrite (get_strip_text_field _ _ _ H2). cbn [mbind res_bind Py.bind].
  rewrite (get_strip_text_field _ _ _ H3). cbn [mbind res_bind Py.bind].
  rewrite (get_strip_text_field _ _ _ H4). cbn [mbind res_bind Py.bind].
  rewrite (get_strip_text_field _ _ _ H5). cbn [mbind res_bind Py.bind Py.get].
  rewrite Hm. change (Py.int _) with (Py.int (horizon_of d)). cbv [mret res_ret].
  destruct (Py.int (horizon_of d)) as [h|e].
  - destruct ((h <? 1) || (24 <? h)); [reflexivity|].
    destruct (generate _ _ _ _ _ _ _ _); reflexivity.
  - destruct e as [[] m]; reflexivity.
Qed.

Lemma process_valid (now : string) (d : gmap string Py.value)
    (i : InputParameters) (h : Z) (st : model_state) :
  identity_fields d i -> Py.int (horizon_of d) = Py.Ok h -> 1 <= h <= 24 ->
  process now (Py.VDict d) st =
  (Success (fst (generate now (product_type i) (tg_code i) (country_region i)
                   (country i) (industry i) h st)),
   snd (generate now (product_type i) (tg_code i) (country_region i)
          (country i) (industry i) h st)).
Proof.
  intros Hi Hh Hr. rewrite (process_identity_present now d i st Hi), Hh.
  replace ((h <? 1) || (24 <? h)) with false by lia.
  destruct (generate _ _ _ _ _ _ _ _); reflexivity.
Qed.

End Validation.

(** ** The periods of a result *)

Section Periods.

Context (MODEL_LOADED : bool) (model_state : Type).
Context (predict_single_item :
  string -> string -> string -> string -> string -> Z -> Z ->
  model_state -> Py.res model_value * model_state).

#[local] Abbreviation along := (prices_along MODEL_LOADED model_state predict_single_item).
#[local] Abbreviation generate :=
  (generate_predictions MODEL_LOADED model_state predict_single_item).

Lemma range_length (h : Z) : length (Py.range h) = Z.to_nat h.
Proof. unfold Py.range. now rewrite length_map, length_seq. Qed.

Lemma range_lookup (h : Z) (n : nat) :
  (n < Z.to_nat h)%nat -> Py.range h !! n = Some (Z.of_nat n).
Proof.
  intros Hn. unfold Py.range.
  rewrite list_lookup_fmap, lookup_seq_lt by exact Hn. reflexivity.
Qed.

Lemma generate_predictions_length (now pt tg cr c ind : string) (h : Z) (st : model_state) :
  length (predictions (fst (generate now pt tg cr c ind h st))) = Z.to_nat h.
Proof.
  rewrite generate_predictions_entries, length_zip_with, prices_along_length, range_length.
  lia.
Qed.

Lemma generate_predictions_lookup (now pt tg cr c ind : string) (h : Z) (st : model_state)
    (n : nat) :
  (n < Z.to_nat h)%nat ->
  exists price_value,
    along pt tg cr c ind (Py.range h) st !! n = Some price_value /\
    predictions (fst (generate now pt tg cr c ind h st)) !! n
    = Some (entry (Z.of_nat n) price_value).
Proof.
  intros Hn.
  destruct (lookup_lt_is_Some_2 (along pt tg cr c ind (Py.range h) st) n) as [pv Hpv].
  { rewrite prices_along_length, range_length. exact Hn. }
  exists pv. split; [exact Hpv|].
  rewrite generate_predictions_entries, lookup_zip_with, (range_lookup h n Hn).
  simpl. rewrite Hpv. reflexivity.
Qed.

Lemma date_label (n : nat) (price_value : option float) :
  (n < 24)%nat ->
  date (entry (Z.of_nat n) price_value)
  = yyyy_mm (year_of (Z.of_nat n)) (month_of (Z.of_nat n)).
Proof.
  intros Hn. unfold entry, prediction_of, date.
  do 24 (destruct n as [|n]; [vm_compute; reflexivity|]). lia.
Qed.

Lemma valid_request_int (d : gmap string Py.value) (i : InputParameters) (h : Z) :
  valid_request d i h -> Py.int (horizon_of d) = Py.Ok h.
Proof. intros (_ & -> & _). reflexivity. Qed.

End Periods.

(** ** Valid requests *)

Section Requests.

Context (MODEL_LOADED : bool) (model_state : Type).
Context (predict_single_item :
  string -> string -> string -> string -> string -> Z -> Z ->
  model_state -> Py.res model_value * model_state).

#[local] Abbreviation process :=
  (process_prediction_request MODEL_LOADED model_state predict_single_item).
#[local] Abbreviation generate :=
  (generate_predictions MODEL_LOADED model_state predict_single_item).

(** C1: for every valid request the result is a success whose list of
    predictions has exactly [horizon_window] entries, and the entry at index
    [n] (from 0) has period [n + 1]: ascending periods without gaps. *)
Theorem predictions_one_per_period (now : string) (d : gmap string Py.value)
    (i : InputParameters) (h : Z) (st : model_state) :
  valid_request d i h ->
  exists r st',
    process now (Py.VDict d) st = (Success r, st') /\
    Py.len (predictions r) = h /\
    forall n : nat, (n < Z.to_nat h)%nat ->
      exists p, predictions r !! n = Some p /\ period p = Z.of_nat n + 1.
Proof.
  intros Hv. pose proof (valid_request_int d i h Hv) as Hint.
  destruct Hv as (Hi & _ & Hr).
  eexists _, _. split; [apply (process_valid _ _ _ now d i h st Hi Hint Hr)|].
  split.
  - unfold Py.len. rewrite generate_predictions_length. lia.
  - intros n Hn.
    destruct (generate_predictions_lookup MODEL_LOADED model_state predict_single_item
                now (product_type i) (tg_code i) (country_region i) (country i)
                (industry i) h st n Hn) as (pv & _ & Hp).
    eexists. split; [exact Hp|reflexivity].
Qed.

(** C2: for every valid request and every period index [p] from 1 to
    [horizon_window], the entry of period [p] has year [2024 + (p-1) div 12]
    and month [(p-1) mod 12 + 1]; periods 1, 12, 13 and 24 fall on (2024, 1),
    (2024, 12), (2025, 1) and (2025, 12); the date is the zero-padded label
    "YYYY-MM" of that year and month. *)
Theorem calendar_of_period (now : string) (d : gmap string Py.value)
    (i : InputParameters) (h : Z) (st : model_state) :
  valid_request d i h ->
  exists r st',
    process now (Py.VDict d) st = (Success r, st') /\
    forall p : Z, 1 <= p <= h ->
      exists q, predictions r !! Z.to_nat (p - 1) = Some q /\
        period q = p /\
        year q = 2024 + (p - 1) / 12 /\
        month q = (p - 1) mod 12 + 1 /\
        date q = yyyy_mm (year q) (month q) /\
        (p = 1 -> year q = 2024 /\ month q = 1 /\ date q = "2024-01") /\
        (p = 12 -> year q = 2024 /\ month q = 12 /\ date q = "2024-12") /\
        (p = 13 -> year q = 2025 /\ month q = 1 /\ date q = "2025-01") /\
        (p = 24 -> year q = 2025 /\ month q = 12 /\ date q = "2025-12").
Proof.
  intros Hv. pose proof (valid_request_int d i h Hv) as Hint.
  destruct Hv as (Hi & _ & Hr).
  eexists _, _. split; [apply (process_valid _ _ _ now d i h st Hi Hint Hr)|].
  intros p Hp.
  destruct (generate_predictions_lookup MODEL_LOADED model_state predict_single_item
              now (product_type i) (tg_code i) (country_region i) (country i)
              (industry i) h st (Z.to_nat (p - 1)) ltac:(lia)) as (pv & _ & Hq).
  eexists. split; [exact Hq|].
  rewrite Z2Nat.id by lia.
  split; [simpl; lia|]. split; [reflexivity|]. split; [reflexivity|].
  split.
  - replace (p - 1) with (Z.of_nat (Z.to_nat (p - 1))) by lia.
    apply date_label. lia.
  - repeat split; subst p; reflexivity.
Qed.

(** C3: with the model loaded, for every valid request, the call of the
    collaborator for a period that raises or returns no value gives the entry
    of that period with no price and the error "Prediction failed for this
    period"; each period has its entry, whose price comes from its own call,
    whatever the earlier calls did; the result is a success, with
    [failed = total - successful]. *)
Theorem period_failure_isolated (now : string) (d : gmap string Py.value)
    (i : InputParameters) (h : Z) (st : model_state) :
  MODEL_LOADED = true ->
  valid_request d i h ->
  exists r st',
    process now (Py.VDict d) st = (Success r, st') /\
    success (fst (process now (Py.VDict d) st)) = true /\
    Py.len (predictions r) = h /\
    total_predictions r = h /\
    successful_predictions r = Py.len (successful_of (predictions r)) /\
    failed_predictions r = total_predictions r - successful_predictions r /\
    length (replies model_state predict_single_item i (Py.range h) st) = Z.to_nat h /\
    forall (n : nat) (reply : Py.res model_value),
      replies model_state predict_single_item i (Py.range h) st !! n = Some reply ->
      exists q, predictions r !! n = Some q /\
        period q = Z.of_nat n + 1 /\
        predicted_price q = model_price reply /\
        (failed_reply reply ->
         predicted_price q = None /\
         error q = Some "Prediction failed for this period").
Proof.
  intros HM Hv. pose proof (valid_request_int d i h Hv) as Hint.
  destruct Hv as (Hi & _ & Hr).
  pose proof (process_valid MODEL_LOADED model_state predict_single_item
                now d i h st Hi Hint Hr) as Hp.
  eexists _, _. split; [exact Hp|]. rewrite Hp.
  split; [reflexivity|].
  split; [unfold Py.len; rewrite generate_predictions_length; lia|].
  rewrite generate_predictions_result. cbn zeta.
  cbn [total_predictions successful_predictions failed_predictions predictions].
  split.
  { unfold Py.len.
    rewrite length_zip_with, prices_along_length, range_length. lia. }
  split; [reflexivity|]. split; [reflexivity|].
  split; [now rewrite replies_length, range_length|].
  intros n reply Hn.
  assert (Hlt : (n < Z.to_nat h)%nat).
  { rewrite <- (range_length h), <- (replies_length model_state predict_single_item i _ st).
    eapply lookup_lt_Some, Hn. }
  rewrite lookup_zip_with, (range_lookup h n Hlt).
  rewrite (replies_lookup_price _ _ _ i (Py.range h) st n reply HM Hn).
  eexists. split; [reflexivity|].
  split; [reflexivity|]. split; [reflexivity|].
  intros Hf. simpl. rewrite (model_price_failed reply Hf). split; reflexivity.
Qed.

End Requests.

(** ** Sums and rounding *)

Section Rounding.

Lemma round_half_even_nearest (m e : Z) :
  0 <= m -> nearest_even m e (Py.round_half_even m e).
Proof.
  intros Hm. unfold nearest_even, Py.round_half_even.
  destruct (Z.leb_spec 0 e) as [He|He].
  - split; [apply Z.mul_nonneg_nonneg; [exact Hm|apply Z.pow_nonneg; lia]|].
    split; [reflexivity|lia].
  - assert (Hd : 0 < 2 ^ (- e)) by (apply Z.pow_pos_nonneg; lia).
    pose proof (Z.div_mod m (2 ^ (- e)) ltac:(lia)) as Hdm.
    pose proof (Z.mod_pos_bound m (2 ^ (- e)) Hd) as Hr.
    pose proof (Z.div_pos m (2 ^ (- e)) Hm Hd) as Hq.
    assert (Heven : Z.even (m / 2 ^ (- e)) = false ->
                    Z.even (m / 2 ^ (- e) + 1) = true).
    { intros H. rewrite Z.add_1_r, Z.even_succ, <- Z.negb_even, H. reflexivity. }
    generalize dependent (m / 2 ^ (- e)). generalize dependent (m mod 2 ^ (- e)).
    generalize dependent (2 ^ (- e)). intros d Hd r Hr q Hdm Hq Heven.
    destruct (Z.compare_spec (2 * r) d) as [Hc|Hc|Hc].
    + destruct (Z.even q) eqn:Hev.
      * split; [lia|]. split; [lia|]. intros _. split; [lia|]. intros _. exact Hev.
      * split; [lia|]. split; [lia|]. intros _. split; [lia|]. intros _.
        apply Heven. reflexivity.
    + split; [lia|]. split; [lia|]. intros _. split; lia.
    + split; [lia|]. split; [lia|]. intros _. split; lia.
Qed.

Lemma nearest_even_unique (m e n n' : Z) :
  nearest_even m e n -> nearest_even m e n' -> n = n'.
Proof.
  intros (Hn & Hpos & Hneg) (Hn' & Hpos' & Hneg').
  destruct (Z.leb_spec 0 e) as [He|He]; [rewrite (Hpos He), (Hpos' He); reflexivity|].
  destruct (Hneg He) as [Hb Ht]. destruct (Hneg' He) as [Hb' Ht'].
  assert (Hd : 0 < 2 ^ (- e)) by (apply Z.pow_pos_nonneg; lia).
  clear Hneg Hneg' Hpos Hpos'.
  generalize dependent (2 ^ (- e)). intros d Hb Ht Hb' Ht' Hd.
  assert (Hup : (n' - n) * d <= d) by lia.
  assert (Hdown : (n - n') * d <= d) by lia.
  assert (Hclose : n' = n \/ n' = n + 1 \/ n = n' + 1) by nia.
  destruct Hclose as [ -> | [ -> | -> ] ]; [reflexivity|..].
  - assert (H1 : Z.abs (2 * m - 2 * n * d) = d) by nia.
    assert (H2 : Z.abs (2 * m - 2 * (n + 1) * d) = d) by nia.
    pose proof (Ht H1) as E1. pose proof (Ht' H2) as E2.
    rewrite Z.add_1_r, Z.even_succ, <- Z.negb_even, E1 in E2. discriminate.
  - assert (H1 : Z.abs (2 * m - 2 * n' * d) = d) by nia.
    assert (H2 : Z.abs (2 * m - 2 * (n' + 1) * d) = d) by nia.
    pose proof (Ht' H1) as E1. pose proof (Ht H2) as E2.
    rewrite Z.add_1_r, Z.even_succ, <- Z.negb_even, E1 in E2. discriminate.
Qed.

(** [round(x, 2)] is [x] rounded to two decimal places. *)
Lemma round2_rounded (x : float) : rounded_to_hundredths x (Py.round2 x).
Proof.
  unfold rounded_to_hundredths, Py.round2.
  destruct (Prim2SF x) as [s|s| |s m e]; try reflexivity.
  exists (Py.round_half_even (Z.pos m * 100) e).
  split; [apply round_half_even_nearest; lia|].
  destruct (Py.round_half_even (Z.pos m * 100) e); reflexivity.
Qed.

(** and nothing else is. *)
Lemma rounded_to_hundredths_unique (x r : float) :
  rounded_to_hundredths x r -> r = Py.round2 x.
Proof.
  pose proof (round2_rounded x) as Hx. unfold rounded_to_hundredths in *.
  destruct (Prim2SF x) as [s|s| |s m e]; try congruence.
  destruct Hx as (n & Hn & ->). intros (n' & Hn' & ->).
  now rewrite (nearest_even_unique _ _ _ _ Hn Hn').
Qed.

Lemma sum_running_total (l : list float) : running_total l (Py.sum l).
Proof.
  induction l as [|x l IH] using rev_ind; [constructor|].
  unfold Py.sum in *. rewrite fold_left_app. simpl. now constructor.
Qed.

Lemma running_total_unique (l : list float) (total : float) :
  running_total l total -> total = Py.sum l.
Proof.
  induction 1 as [|l x total _ ->]; [reflexivity|].
  unfold Py.sum. now rewrite fold_left_app.
Qed.

Lemma quotients_agree_spec (k : nat) (p q : positive) :
  quotients_agree k p = true ->
  (p <= q)%positive -> (Pos.to_nat q < Pos.to_nat p + k)%nat ->
  quotient_agrees q = true.
Proof.
  revert p. induction k as [|k IH]; intros p Hk Hpq Hq; [lia|].
  simpl in Hk. apply andb_true_iff in Hk as [Hp Hk].
  destruct (Pos.eq_dec p q) as [->|Hne]; [exact Hp|].
  apply (IH (Pos.succ p) Hk); lia.
Qed.

(** Up to 20000 hundredths, the quotient is that of the division of the
    floats, [float(n) / 100]. *)
Lemma hundredths_division (s : bool) (p : positive) :
  (p <= 20000)%positive ->
  hundredths s p = (Py.to_float (if s then Zneg p else Zpos p) / 100)%float.
Proof.
  intros Hp.
  assert (Hall : quotients_agree (Pos.to_nat 20000) 1 = true)
    by (vm_compute; reflexivity).
  pose proof (quotients_agree_spec _ 1 p Hall ltac:(lia) ltac:(lia)) as Hq.
  apply andb_true_iff in Hq as [Hpos Hneg].
  destruct s; now apply FloatAxioms.Leibniz.eqb_spec.
Qed.

(** [round(x, 2)] at a few floats: 0.125 and 0.375 lie halfway and go to
    the even hundredth; the float 2.675 lies below 2.675, and -1.005 above
    -1.005. *)
Example round2_samples :
  Py.round2 0.125 = 0.12%float /\ Py.round2 0.375 = 0.38%float /\
  Py.round2 2.675 = 2.67%float /\ Py.round2 (-1.005) = (-1)%float /\
  Py.round2 (4 / 3) = 1.33%float /\ Py.round2 20.5 = 20.5%float.
Proof. vm_compute. repeat split; reflexivity. Qed.

(** The order of the additions shows in avg: the four prices below add up,
    one after the other, to 101.02000000000001 and their avg is 25.26; the
    compensated sum of CPython 3.12 is 101.02, which gives 25.25. *)
Example sum_order_matters :
  let prices := [7.98; 15.62; 38.07; 39.35]%float in
  Py.sum prices = 101.02000000000001%float /\
  Py.round2 (Py.sum prices / Py.to_float (Py.len prices)) = 25.26%float /\
  Py.sum_compensated prices = 101.02%float /\
  Py.round2 (Py.sum_compensated prices / Py.to_float (Py.len prices)) = 25.25%float.
Proof. vm_compute. repeat split; reflexivity. Qed.

End Rounding.

(** ** The statistics *)

Lemma prices_of_successful (predictions : list Prediction) :
  prices_of (successful_of predictions) = omap predicted_price predictions.
Proof.
  unfold prices_of, successful_of, has_price.
  induction predictions as [|p l IH]; simpl; [reflexivity|].
  destruct (predicted_price p) eqn:Hp; simpl; rewrite ?Hp; simpl;
    [f_equal|]; exact IH.
Qed.

(** C4: the statistics of any list of outcomes are those of the prices that
    are present, in order.  Without any, min, max and avg are absent and the
    trend is "unknown".  Otherwise min (max) is one of the prices and no price
    is below (above) it; avg is the mean rounded to two decimal places: with
    [total] the prices added up in order, avg is the one float [r] for which
    [total / count] rounds to [r], that is the binary64 nearest to [n / 100]
    where [n] is the integer nearest to [100 * total / count], ties to even;
    and the trend is "increasing" when there are at least two prices and the
    last exceeds the first, "decreasing" when there are at least two and the
    last is below the first, "stable" otherwise: with one price it is
    "stable". *)
Theorem statistics_of_prices (predictions : list Prediction) :
  let prices := omap predicted_price predictions in
  let s := statistics_of predictions in
  prices_of (successful_of predictions) = prices /\
  match prices with
  | [] => s = mkStatistics None None None "unknown"
  | first :: rest =>
      let last := List.last prices first in
      exists mn mx,
        min_price s = Some mn /\ In mn prices /\
        (forall p, In p prices -> (p <? mn)%float = false) /\
        (forall p, In p prices -> is_number mn -> is_number p -> fle mn p) /\
        max_price s = Some mx /\ In mx prices /\
        (forall p, In p prices -> (mx <? p)%float = false) /\
        (forall p, In p prices -> is_number mx -> is_number p -> fle p mx) /\
        (exists total avg,
           running_total prices total /\
           rounded_to_hundredths (total / Py.to_float (Py.len prices))%float avg /\
           avg_price s = Some avg) /\
        (forall total avg,
           running_total prices total ->
           rounded_to_hundredths (total / Py.to_float (Py.len prices))%float avg ->
           avg_price s = Some avg) /\
        price_trend s =
          (if (2 <=? Py.len prices) && (first <? last)%float then "increasing"
           else if (2 <=? Py.len prices) && (last <? first)%float then "decreasing"
           else "stable") /\
        (rest = [] -> price_trend s = "stable") /\
        price_trend s <> "unknown"
  end.
Proof.
  intros prices s. split; [apply prices_of_successful|].
  subst s. unfold statistics_of. rewrite prices_of_successful. fold prices.
  destruct prices as [|first rest]; [reflexivity|].
  cbn zeta. cbn [min_price max_price avg_price price_trend].
  exists (Py.min_from first rest), (Py.max_from first rest).
  split; [reflexivity|]. split; [apply min_from_In|].
  split; [intros p Hp; apply min_from_minimal, Hp|].
  split.
  { intros p Hp Hm Hn. apply not_ltb_leb; [exact Hn|exact Hm|].
    apply min_from_minimal, Hp. }
  split; [reflexivity|]. split; [apply max_from_In|].
  split; [intros p Hp; apply max_from_maximal, Hp|].
  split.
  { intros p Hp Hm Hn. apply not_ltb_leb; [exact Hm|exact Hn|].
    apply max_from_maximal, Hp. }
  split.
  { exists (Py.sum (first :: rest)), (Py.round2
      (Py.sum (first :: rest) / Py.to_float (Py.len (first :: rest)))%float).
    split; [apply sum_running_total|]. split; [apply round2_rounded|reflexivity]. }
  split.
  { intros total avg Htotal Havg.
    rewrite (running_total_unique _ _ Htotal) in Havg.
    now rewrite (rounded_to_hundredths_unique _ _ Havg). }
  assert (Hlen : (2 <=? Py.len (first :: rest)) = (1 <? Py.len (first :: rest))).
  { destruct (Z.leb_spec 2 (Py.len (first :: rest))),
      (Z.ltb_spec 1 (Py.len (first :: rest))); (reflexivity || lia). }
  unfold trend_of. rewrite Hlen.
  split; [reflexivity|]. split.
  - intros ->. reflexivity.
  - destruct (_ && _); [discriminate|]. destruct (_ && _); discriminate.
Qed.

(** ** Missing fields *)

Section Missing.

Context (MODEL_LOADED : bool) (model_state : Type).
Context (predict_single_item :
  string -> string -> string -> string -> string -> Z -> Z ->
  model_state -> Py.res model_value * model_state).

#[local] Abbreviation process :=
  (process_prediction_request MODEL_LOADED model_state predict_single_item).

Lemma get_strip_text_or_absent (d : gmap string Py.value) (key : string) :
  text_or_absent d -> In key identity_keys ->
  Py.get (Py.VDict d) key (Py.VStr "") ≫= Py.strip = Py.Ok (field_text d key).
Proof.
  intros Ht Hk. unfold field_text. simpl.
  destruct (Ht key Hk) as [->|[raw ->]]; reflexivity.
Qed.

Lemma blank_field_text (d : gmap string Py.value) (key : string) :
  text_or_absent d -> In key identity_keys ->
  negb (Py.str_truthy (field_text d key)) = blank d key.
Proof.
  intros Ht Hk. unfold field_text, blank.
  destruct (Ht key Hk) as [->|[raw ->]]; [reflexivity|].
  destruct (Py.str_strip raw); reflexivity.
Qed.

Lemma missing_params_fields (d : gmap string Py.value) :
  text_or_absent d ->
  missing_params_of (field_text d "product_type") (field_text d "tg_code")
    (field_text d "country_region") (field_text d "country") (field_text d "industry")
  = missing_fields d.
Proof.
  intros Ht. unfold missing_params_of, missing_fields, identity_keys.
  rewrite !(blank_field_text d) by (exact Ht || (simpl; tauto)).
  simpl.
  destruct (blank d "product_type"), (blank d "tg_code"), (blank d "country_region"),
    (blank d "country"), (blank d "industry"); reflexivity.
Qed.

(** C5, as amended: for every payload whose identity fields are each absent
    or a text, if one or more of them is absent or trims to empty, the
    handler returns one failure whose message lists all the missing names,
    in the order of the fields; nothing is predicted (the collaborator's
    state is untouched), and the horizon is not looked at: whatever
    ["horizon_window"] holds, the answer is the same.  Without the condition
    on the identity fields the statement fails: a field that holds a value
    other than a text (null, a number) raises in [strip] before the missing
    names are collected. *)
Theorem missing_fields_reported (now : string) (d : gmap string Py.value)
    (st : model_state) :
  text_or_absent d ->
  missing_fields d <> [] ->
  process now (Py.VDict d) st
  = (Failure ("Missing required parameters: " +:+ Py.join ", " (missing_fields d)) now, st)
  /\ forall v : Py.value,
       process now (Py.VDict (<["horizon_window" := v]> d)) st
       = process now (Py.VDict d) st.
Proof.
  assert (Hmain : forall d' : gmap string Py.value,
            text_or_absent d' -> missing_fields d' <> [] ->
            process now (Py.VDict d') st
            = (Failure ("Missing required parameters: "
                        +:+ Py.join ", " (missing_fields d')) now, st)).
  { intros d' Ht Hm.
    unfold process_prediction_request, process_body.
    do 5 (rewrite (get_strip_text_or_absent d') by (exact Ht || (simpl; tauto));
          cbn [mbind res_bind Py.bind]).
    cbn [Py.get mbind res_bind Py.bind].
    rewrite (missing_params_fields d' Ht).
    destruct (missing_fields d') as [|name names]; [congruence|reflexivity]. }
  intros Ht Hm. split; [apply Hmain; assumption|].
  intros v.
  assert (Hsame : forall key, In key identity_keys ->
            <["horizon_window" := v]> d !! key = d !! key).
  { intros key Hk. apply lookup_insert_ne. intros <-.
    simpl in Hk. intuition discriminate. }
  assert (Hmf : missing_fields (<["horizon_window" := v]> d) = missing_fields d).
  { unfold missing_fields, identity_keys, blank. simpl.
    rewrite !Hsame by (simpl; tauto). reflexivity. }
  rewrite !Hmain; rewrite ?Hmf; try assumption; [reflexivity|].
  intros key Hk. rewrite (Hsame key Hk). apply Ht, Hk.
Qed.

End Missing.

(** ** The horizon *)

Section Horizon.

Context (MODEL_LOADED : bool) (model_state : Type).
Context (predict_single_item :
  string -> string -> string -> string -> string -> Z -> Z ->
  model_state -> Py.res model_value * model_state).

#[local] Abbreviation process :=
  (process_prediction_request MODEL_LOADED model_state predict_single_item).
#[local] Abbreviation generate :=
  (generate_predictions MODEL_LOADED model_state predict_single_item).

Lemma process_accepts (now : string) (d : gmap string Py.value)
    (i : InputParameters) (h : Z) (st : model_state) :
  identity_fields d i -> Py.int (horizon_of d) = Py.Ok h -> 1 <= h <= 24 ->
  exists r st',
    process now (Py.VDict d) st = (Success r, st') /\
    horizon_window r = h /\ Py.len (predictions r) = h.
Proof.
  intros Hi Hint Hr.
  eexists _, _. split; [apply (process_valid _ _ _ now d i h st Hi Hint Hr)|].
  split.
  - rewrite generate_predictions_result. reflexivity.
  - unfold Py.len. rewrite generate_predictions_length. lia.
Qed.

Lemma process_out_of_range (now : string) (d : gmap string Py.value)
    (i : InputParameters) (h : Z) (st : model_state) :
  identity_fields d i -> Py.int (horizon_of d) = Py.Ok h -> h < 1 \/ 24 < h ->
  process now (Py.VDict d) st
  = (Failure "horizon_window must be between 1 and 24 months" now, st).
Proof.
  intros Hi Hint Hr. rewrite (process_identity_present _ _ _ now d i st Hi), Hint.
  replace ((h <? 1) || (24 <? h)) with true by lia. reflexivity.
Qed.

Lemma horizon_of_lookup (d : gmap string Py.value) (v : Py.value) :
  d !! "horizon_window" = Some v -> horizon_of d = v.
Proof. unfold horizon_of. now intros ->. Qed.

Lemma horizon_of_insert (d : gmap string Py.value) (v : Py.value) :
  horizon_of (<["horizon_window" := v]> d) = v.
Proof. unfold horizon_of. now rewrite lookup_insert_eq. Qed.

Lemma identity_fields_insert (d : gmap string Py.value) (i : InputParameters)
    (v : Py.value) :
  identity_fields d i -> identity_fields (<["horizon_window" := v]> d) i.
Proof.
  intros (H1 & H2 & H3 & H4 & H5).
  repeat split;
    match goal with
    | H : text_field d ?k ?s |- text_field _ ?k ?s =>
        destruct H as (raw & Hd & Hs & Hn); exists raw;
        rewrite lookup_insert_ne by discriminate; auto
    end.
Qed.

(** The answer depends on the horizon through [int] of it only. *)
Lemma process_same_int (now : string) (d : gmap string Py.value)
    (i : InputParameters) (v : Py.value) (st : model_state) :
  identity_fields d i -> Py.int (horizon_of d) = Py.int v ->
  process now (Py.VDict d) st
  = process now (Py.VDict (<["horizon_window" := v]> d)) st.
Proof.
  intros Hi Hint.
  rewrite (process_identity_present _ _ _ now d i st Hi).
  rewrite (process_identity_present _ _ _ now _ i st (identity_fields_insert d i v Hi)).
  rewrite horizon_of_insert, Hint. reflexivity.
Qed.

(** C6: with the five identity fields present, the horizons 0 and 25 (any
    integer outside 1..24) and the text "abc" give a failure with the message
    of the horizon and no prediction; an absent horizon is read as 1 and the
    request proceeds; the integers 1 to 24 are accepted. *)
Theorem horizon_validated (now : string) (d : gmap string Py.value)
    (i : InputParameters) (st : model_state) :
  identity_fields d i ->
  (d !! "horizon_window" = Some (Py.VInt 0) ->
   process now (Py.VDict d) st
   = (Failure "horizon_window must be between 1 and 24 months" now, st)) /\
  (d !! "horizon_window" = Some (Py.VInt 25) ->
   process now (Py.VDict d) st
   = (Failure "horizon_window must be between 1 and 24 months" now, st)) /\
  (forall h, d !! "horizon_window" = Some (Py.VInt h) -> h < 1 \/ 24 < h ->
   process now (Py.VDict d) st
   = (Failure "horizon_window must be between 1 and 24 months" now, st)) /\
  (d !! "horizon_window" = Some (Py.VStr "abc") ->
   process now (Py.VDict d) st
   = (Failure "horizon_window must be a valid integer" now, st)) /\
  (d !! "horizon_window" = None ->
   exists r st',
     process now (Py.VDict d) st = (Success r, st') /\
     horizon_window r = 1 /\ Py.len (predictions r) = 1) /\
  (forall h, d !! "horizon_window" = Some (Py.VInt h) -> 1 <= h <= 24 ->
   exists r st',
     process now (Py.VDict d) st = (Success r, st') /\
     horizon_window r = h /\ Py.len (predictions r) = h).
Proof.
  intros Hi. repeat split.
  - intros H. apply (process_out_of_range now d i 0 st Hi); [|lia].
    now rewrite (horizon_of_lookup d _ H).
  - intros H. apply (process_out_of_range now d i 25 st Hi); [|lia].
    now rewrite (horizon_of_lookup d _ H).
  - intros h H Hr. apply (process_out_of_range now d i h st Hi); [|exact Hr].
    now rewrite (horizon_of_lookup d _ H).
  - intros H. rewrite (process_identity_present _ _ _ now d i st Hi).
    rewrite (horizon_of_lookup d _ H). reflexivity.
  - intros H. apply (process_accepts now d i 1 st Hi); [|lia].
    unfold horizon_of. now rewrite H.
  - intros h H Hr. apply (process_accepts now d i h st Hi); [|exact Hr].
    now rewrite (horizon_of_lookup d _ H).
Qed.

Lemma int_of_float_finite (f : float) :
  is_finite f = true -> exists z, Py.int_of_float f = Py.Ok z.
Proof.
  unfold is_finite, is_nan, is_infinity, Py.int_of_float.
  rewrite !FloatAxioms.eqb_spec, abs_spec.
  change (Prim2SF infinity) with (S754_infinity false).
  destruct (Prim2SF f) as [s|[]| |s m e]; simpl; try discriminate; eauto.
Qed.

(** [int] of a float truncates toward zero: for the float of sign [s] and
    absolute value [m * 2^e], the integer has that sign and its absolute
    value [a] is the integer part, [a <= m * 2^e < a + 1]. *)
Lemma int_of_float_truncates (f : float) (z : Z) :
  Py.int_of_float f = Py.Ok z ->
  match Prim2SF f with
  | S754_finite s m e =>
      (if s then z <= 0 else 0 <= z) /\
      (0 <= e -> Z.abs z = Zpos m * 2 ^ e) /\
      (e < 0 -> Z.abs z * 2 ^ (- e) <= Zpos m < (Z.abs z + 1) * 2 ^ (- e))
  | S754_zero _ => z = 0
  | _ => False
  end.
Proof.
  unfold Py.int_of_float.
  destruct (Prim2SF f) as [s|s| |s m e]; try discriminate.
  - now intros [= <-].
  - intros [= <-].
    assert (Ha : 0 <= Z.shiftl (Z.pos m) e) by (apply Z.shiftl_nonneg; lia).
    assert (Habs : Z.abs (if s then - Z.shiftl (Z.pos m) e else Z.shiftl (Z.pos m) e)
                   = Z.shiftl (Z.pos m) e) by (destruct s; lia).
    rewrite Habs. split; [destruct s; lia|]. split.
    + intros He. now rewrite Z.shiftl_mul_pow2.
    + intros He.
      rewrite <- (Z.shiftr_opp_r (Z.pos m) e), Z.shiftr_div_pow2 by lia.
      assert (Hd : 0 < 2 ^ (- e)) by (apply Z.pow_pos_nonneg; lia).
      pose proof (Z.div_mod (Z.pos m) (2 ^ (- e)) ltac:(lia)) as Hdm.
      pose proof (Z.mod_pos_bound (Z.pos m) (2 ^ (- e)) Hd) as Hm.
      generalize dependent (Z.pos m / 2 ^ (- e)).
      generalize dependent (Z.pos m mod 2 ^ (- e)).
      generalize dependent (2 ^ (- e)).
      intros; lia.
Qed.

(** C10: with the five identity fields present, a horizon given as a float
    that is a finite number, or as a boolean, is not refused for its type: it
    is answered as the integer [int] truncates it to, range check included.
    So 2.9 is accepted and gives 2 periods, while the text "2.9" is refused
    as not an integer. *)
Theorem horizon_truncated (now : string) (d : gmap string Py.value)
    (i : InputParameters) (st : model_state) :
  identity_fields d i ->
  (forall f z, d !! "horizon_window" = Some (Py.VFloat f) ->
   Py.int_of_float f = Py.Ok z ->
   process now (Py.VDict d) st
   = process now (Py.VDict (<["horizon_window" := Py.VInt z]> d)) st) /\
  (forall b : bool, d !! "horizon_window" = Some (Py.VBool b) ->
   process now (Py.VDict d) st
   = process now (Py.VDict (<["horizon_window" := Py.VInt (if b then 1 else 0)]> d)) st) /\
  (forall f, is_finite f = true -> exists z, Py.int_of_float f = Py.Ok z) /\
  (forall f z, Py.int_of_float f = Py.Ok z ->
   match Prim2SF f with
   | S754_finite s m e =>
       (if s then z <= 0 else 0 <= z) /\
       (0 <= e -> Z.abs z = Zpos m * 2 ^ e) /\
       (e < 0 -> Z.abs z * 2 ^ (- e) <= Zpos m < (Z.abs z + 1) * 2 ^ (- e))
   | S754_zero _ => z = 0
   | _ => False
   end) /\
  Py.int_of_float 2.9%float = Py.Ok 2 /\
  (d !! "horizon_window" = Some (Py.VFloat 2.9%float) ->
   exists r st',
     process now (Py.VDict d) st = (Success r, st') /\
     horizon_window r = 2 /\ Py.len (predictions r) = 2) /\
  (d !! "horizon_window" = Some (Py.VStr "2.9") ->
   process now (Py.VDict d) st
   = (Failure "horizon_window must be a valid integer" now, st)).
Proof.
  intros Hi. repeat split.
  - intros f z H Hz. apply (process_same_int now d i _ st Hi).
    rewrite (horizon_of_lookup d _ H). exact Hz.
  - intros b H. apply (process_same_int now d i _ st Hi).
    rewrite (horizon_of_lookup d _ H). reflexivity.
  - apply int_of_float_finite.
  - apply int_of_float_truncates.
  - intros H. apply (process_accepts now d i 2 st Hi); [|lia].
    rewrite (horizon_of_lookup d _ H). reflexivity.
  - intros H. rewrite (process_identity_present _ _ _ now d i st Hi).
    rewrite (horizon_of_lookup d _ H). reflexivity.
Qed.

End Horizon.

(** ** The simulation *)

Section Simulation.

Context (model_state : Type).
Context (predict_single_item :
  string -> string -> string -> string -> string -> Z -> Z ->
  model_state -> Py.res model_value * model_state).

#[local] Abbreviation process ML :=
  (process_prediction_request ML model_state predict_single_item).
#[local] Abbreviation generate ML :=
  (generate_predictions ML model_state predict_single_item).

Lemma simulated_price_exact (n : nat) :
  (n < 24)%nat ->
  simulated_price (Z.of_nat n) = (Py.to_float (40 + Z.of_nat n) / 2)%float.
Proof.
  intros Hn.
  do 24 (destruct n as [|n]; [vm_compute; reflexivity|]). lia.
Qed.

(** On the prices of the simulation every partial sum is exact: the
    compensated [sum] of the later interpreters gives the same total. *)
Lemma simulation_sum_exact (n : nat) :
  (n <= 24)%nat ->
  Py.sum_compensated (map simulated_price (Py.range (Z.of_nat n)))
  = Py.sum (map simulated_price (Py.range (Z.of_nat n))).
Proof.
  intros Hn.
  do 25 (destruct n as [|n]; [vm_compute; reflexivity|]). lia.
Qed.

Lemma simulation_state (pt tg cr c ind : string) (offsets : list Z)
    (acc : list Prediction) (st : model_state) :
  snd (predict_loop false model_state predict_single_item pt tg cr c ind offsets acc st)
  = st.
Proof.
  revert acc. induction offsets as [|o offsets IH]; intros acc; simpl; [reflexivity|].
  apply IH.
Qed.

Lemma generate_simulation_state (now pt tg cr c ind : string) (h : Z) (st : model_state) :
  snd (generate false now pt tg cr c ind h st) = st.
Proof.
  unfold generate_predictions.
  pose proof (simulation_state pt tg cr c ind (Py.range h) [] st) as H.
  destruct (predict_loop false _ _ _ _ _ _ _ _ _ _) as [ps st']. exact H.
Qed.

Lemma simulation_entries (pt tg cr c ind : string) (offsets : list Z) (st : model_state) :
  zip_with entry offsets
    (prices_along false model_state predict_single_item pt tg cr c ind offsets st)
  = map (fun o => entry o (Some (simulated_price o))) offsets.
Proof.
  rewrite prices_along_simulation by reflexivity.
  induction offsets as [|o offsets IH]; simpl; [reflexivity|]. now rewrite IH.
Qed.

Lemma successful_of_priced (offsets : list Z) (price : Z -> float) :
  successful_of (map (fun o => entry o (Some (price o))) offsets)
  = map (fun o => entry o (Some (price o))) offsets.
Proof.
  unfold successful_of.
  induction offsets as [|o offsets IH]; simpl; [reflexivity|]. now rewrite IH.
Qed.

(** C7: for every valid request, the advisory note is present exactly when
    the simulation is active; then the result names "simulation", every
    period succeeds, and the price of period [p] is
    [round(20.0 + (p-1) * 0.5, 2)], which is [20 + (p-1)/2] exactly.  For a
    horizon of 3 the prices are 20.0, 20.5 and 21.0, with min 20.0, max 21.0,
    avg 20.5 and an increasing trend. *)
Theorem simulation_prices (ML : bool) (now : string) (d : gmap string Py.value)
    (i : InputParameters) (h : Z) (st : model_state) :
  valid_request d i h ->
  exists r st',
    process ML now (Py.VDict d) st = (Success r, st') /\
    (note r <> None <-> ML = false) /\
    (ML = false ->
     st' = st /\
     model_used r = "simulation" /\
     note r = Some "Using simulated data. Deploy with model files for real predictions." /\
     successful_predictions r = h /\
     failed_predictions r = 0 /\
     (forall p : Z, 1 <= p <= h ->
        exists q, predictions r !! Z.to_nat (p - 1) = Some q /\
          period q = p /\
          predicted_price q
          = Some (Py.round2 (20.0 + Py.to_float (p - 1) * 0.5)%float) /\
          predicted_price q = Some (Py.to_float (39 + p) / 2)%float /\
          error q = None) /\
     (h = 3 ->
        map predicted_price (predictions r)
        = [Some 20.0%float; Some 20.5%float; Some 21.0%float] /\
        price_statistics r
        = mkStatistics (Some 20.0%float) (Some 21.0%float) (Some 20.5%float)
            "increasing")).
Proof.
  intros Hv. pose proof (valid_request_int d i h Hv) as Hint.
  destruct Hv as (Hi & _ & Hr).
  eexists _, _.
  split; [apply (process_valid _ _ _ now d i h st Hi Hint Hr)|].
  rewrite generate_predictions_result. cbn zeta. cbn [note].
  split; [destruct ML; simpl; split; congruence|].
  intros ->. rewrite generate_simulation_state, simulation_entries.
  cbn [model_used successful_predictions failed_predictions predictions
       price_statistics negb].
  rewrite successful_of_priced.
  assert (Hlen : Py.len (map (fun o => entry o (Some (simulated_price o))) (Py.range h)) = h).
  { unfold Py.len. rewrite length_map, range_length. lia. }
  rewrite Hlen.
  split; [reflexivity|]. split; [reflexivity|]. split; [reflexivity|].
  split; [reflexivity|]. split; [lia|]. split.
  - intros p Hp.
    rewrite list_lookup_fmap, (range_lookup h (Z.to_nat (p - 1))) by lia.
    rewrite Z2Nat.id by lia.
    eexists. split; [reflexivity|]. split; [simpl; lia|].
    split; [reflexivity|]. split; [|reflexivity].
    simpl. f_equal.
    replace (p - 1) with (Z.of_nat (Z.to_nat (p - 1))) by lia.
    rewrite simulated_price_exact by lia. do 2 f_equal. lia.
  - intros ->. split; vm_compute; reflexivity.
Qed.

(** C8, as amended: for every valid request in simulation, a run leaves the
    state as it was, and a second run, made when the clock reads [now2],
    gives the result of the first with ["timestamp"] set to [now2]: every
    other field is the same. *)
Theorem simulation_repeatable (now1 now2 : string) (d : gmap string Py.value)
    (i : InputParameters) (h : Z) (st : model_state) :
  valid_request d i h ->
  exists r1 r2,
    process false now1 (Py.VDict d) st = (Success r1, st) /\
    process false now2 (Py.VDict d) st = (Success r2, st) /\
    timestamp r1 = now1 /\
    r2 = at_time now2 r1.
Proof.
  intros Hv. pose proof (valid_request_int d i h Hv) as Hint.
  destruct Hv as (Hi & _ & Hr).
  eexists _, _.
  rewrite !(process_valid _ _ _ _ d i h st Hi Hint Hr), !generate_simulation_state.
  split; [reflexivity|]. split; [reflexivity|].
  rewrite !generate_predictions_result. split; reflexivity.
Qed.

End Simulation.

(** ** The model *)

Section Model.

Context (model_state : Type).
Context (predict_single_item :
  string -> string -> string -> string -> string -> Z -> Z ->
  model_state -> Py.res model_value * model_state).

#[local] Abbreviation process :=
  (process_prediction_request true model_state predict_single_item).
#[local] Abbreviation generate :=
  (generate_predictions true model_state predict_single_item).

(** With the model loaded, the entry of a period is made from the reply of
    the call for that period. *)
Lemma model_entry (now : string) (i : InputParameters) (h : Z) (st : model_state)
    (n : nat) (reply : Py.res model_value) :
  replies model_state predict_single_item i (Py.range h) st !! n = Some reply ->
  predictions (fst (generate now (product_type i) (tg_code i) (country_region i)
                      (country i) (industry i) h st)) !! n
  = Some (entry (Z.of_nat n) (model_price reply)).
Proof.
  intros Hn.
  assert (Hlt : (n < Z.to_nat h)%nat).
  { rewrite <- (range_length h), <- (replies_length model_state predict_single_item i _ st).
    eapply lookup_lt_Some, Hn. }
  rewrite generate_predictions_entries, lookup_zip_with, (range_lookup h n Hlt).
  rewrite (replies_lookup_price true _ _ i (Py.range h) st n reply eq_refl Hn).
  reflexivity.
Qed.

(** C9: with the model loaded, for every valid request, a call that returns
    a falsy value (the int 0, the float 0.0 or -0.0, no value) gives a failed
    period, without a price and with the error text, and not a period priced
    0: the test on the returned value is its truth value. *)
Theorem falsy_price_fails (now : string) (d : gmap string Py.value)
    (i : InputParameters) (h : Z) (st : model_state) :
  valid_request d i h ->
  exists r st',
    process now (Py.VDict d) st = (Success r, st') /\
    (forall (n : nat) (v : model_value),
       replies model_state predict_single_item i (Py.range h) st !! n = Some (Py.Ok v) ->
       truthy v = false ->
       exists q, predictions r !! n = Some q /\
         period q = Z.of_nat n + 1 /\
         predicted_price q = None /\
         error q = Some "Prediction failed for this period") /\
    truthy (MInt 0) = false /\
    truthy (MFloat 0.0%float) = false /\
    truthy (MFloat (-0.0)%float) = false /\
    truthy MNone = false.
Proof.
  intros Hv. pose proof (valid_request_int d i h Hv) as Hint.
  destruct Hv as (Hi & _ & Hr).
  eexists _, _.
  split; [apply (process_valid _ _ _ now d i h st Hi Hint Hr)|].
  split; [|repeat split].
  intros n v Hn Hf.
  rewrite (model_entry now i h st n _ Hn), (model_price_falsy v Hf).
  eexists. repeat split.
Qed.

End Model.

(** ** The statements at sample requests *)

Lemma predictions_one_per_period_witness :
  valid_request (request_of (Py.VInt 5)) sample_input 5 /\
  exists r st',
    process_prediction_request true Z flaky_model sample_now
      (Py.VDict (request_of (Py.VInt 5))) 0 = (Success r, st') /\
    Py.len (predictions r) = 5 /\
    forall n : nat, (n < Z.to_nat 5)%nat ->
      exists p, predictions r !! n = Some p /\ period p = Z.of_nat n + 1.
Proof.
  assert (Hv : valid_request (request_of (Py.VInt 5)) sample_input 5) by sample_valid.
  split; [exact Hv|].
  exact (predictions_one_per_period true Z flaky_model sample_now _ _ _ 0 Hv).
Defined.

Lemma calendar_of_period_witness :
  valid_request (request_of (Py.VInt 24)) sample_input 24 /\
  exists r st',
    process_prediction_request false unit no_model sample_now
      (Py.VDict (request_of (Py.VInt 24))) tt = (Success r, st') /\
    forall p : Z, 1 <= p <= 24 ->
      exists q, predictions r !! Z.to_nat (p - 1) = Some q /\
        period q = p /\
        year q = 2024 + (p - 1) / 12 /\
        month q = (p - 1) mod 12 + 1 /\
        date q = yyyy_mm (year q) (month q) /\
        (p = 1 -> year q = 2024 /\ month q = 1 /\ date q = "2024-01") /\
        (p = 12 -> year q = 2024 /\ month q = 12 /\ date q = "2024-12") /\
        (p = 13 -> year q = 2025 /\ month q = 1 /\ date q = "2025-01") /\
        (p = 24 -> year q = 2025 /\ month q = 12 /\ date q = "2025-12").
Proof.
  assert (Hv : valid_request (request_of (Py.VInt 24)) sample_input 24) by sample_valid.
  split; [exact Hv|].
  exact (calendar_of_period false unit no_model sample_now _ _ _ tt Hv).
Defined.

Lemma period_failure_isolated_witness :
  valid_request (request_of (Py.VInt 5)) sample_input 5 /\
  replies Z flaky_model sample_input (Py.range 5) 0 !! 1%nat
  = Some (Py.Raise (Py.mkExn Py.OtherException "model failure")) /\
  exists r st',
    process_prediction_request true Z flaky_model sample_now
      (Py.VDict (request_of (Py.VInt 5))) 0 = (Success r, st') /\
    Py.len (predictions r) = 5 /\
    failed_predictions r = total_predictions r - successful_predictions r /\
    exists q, predictions r !! 1%nat = Some q /\
      period q = 2 /\
      predicted_price q = None /\
      error q = Some "Prediction failed for this period".
Proof.
  assert (Hv : valid_request (request_of (Py.VInt 5)) sample_input 5) by sample_valid.
  split; [exact Hv|]. split; [reflexivity|].
  destruct (period_failure_isolated true Z flaky_model sample_now _ _ _ 0 eq_refl Hv)
    as (r & st' & Hp & _ & Hlen & _ & _ & Hfailed & _ & Hreply).
  exists r, st'. split; [exact Hp|]. split; [exact Hlen|]. split; [exact Hfailed|].
  destruct (Hreply 1%nat _ eq_refl) as (q & Hq & Hperiod & _ & Hfail).
  exists q. split; [exact Hq|]. split; [exact Hperiod|]. exact (Hfail I).
Defined.

Lemma missing_fields_reported_witness :
  text_or_absent incomplete_request /\
  missing_fields incomplete_request = ["product_type"; "country"] /\
  process_prediction_request true Z flaky_model sample_now
    (Py.VDict incomplete_request) 0
  = (Failure "Missing required parameters: product_type, country" sample_now, 0) /\
  forall v : Py.value,
    process_prediction_request true Z flaky_model sample_now
      (Py.VDict (<["horizon_window" := v]> incomplete_request)) 0
    = process_prediction_request true Z flaky_model sample_now
        (Py.VDict incomplete_request) 0.
Proof.
  assert (Ht : text_or_absent incomplete_request).
  { intros key [<-|[<-|[<-|[<-|[<-|[]]]]]];
      first [left; reflexivity|right; eexists; reflexivity]. }
  split; [exact Ht|]. split; [reflexivity|].
  apply (missing_fields_reported true Z flaky_model sample_now incomplete_request 0 Ht).
  discriminate.
Defined.

(** C5, as stated, fails: a payload in which ["tg_code"] is absent and
    ["product_type"] is null does not get the failure listing the missing
    names.  [None.strip()] raises before the missing names are collected,
    and the outer handler reports that instead. *)
Lemma missing_fields_null_field :
  null_field_request !! "tg_code" = None /\
  missing_fields null_field_request = ["tg_code"] /\
  process_prediction_request true Z flaky_model sample_now
    (Py.VDict null_field_request) 0
  = (Failure "Prediction processing error: 'NoneType' object has no attribute 'strip'"
       sample_now, 0) /\
  forall names : string,
    process_prediction_request true Z flaky_model sample_now
      (Py.VDict null_field_request) 0
    <> (Failure ("Missing required parameters: " +:+ names) sample_now, 0).
Proof.
  split; [reflexivity|]. split; [reflexivity|].
  assert (Hp : process_prediction_request true Z flaky_model sample_now
                 (Py.VDict null_field_request) 0
               = (Failure
                    "Prediction processing error: 'NoneType' object has no attribute 'strip'"
                    sample_now, 0)) by (vm_compute; reflexivity).
  split; [exact Hp|].
  intros names H. rewrite Hp in H. discriminate H.
Qed.

Lemma horizon_validated_witness :
  identity_fields (request_of (Py.VStr "abc")) sample_input /\
  process_prediction_request false unit no_model sample_now
    (Py.VDict (request_of (Py.VInt 0))) tt
  = (Failure "horizon_window must be between 1 and 24 months" sample_now, tt) /\
  process_prediction_request false unit no_model sample_now
    (Py.VDict (request_of (Py.VInt 25))) tt
  = (Failure "horizon_window must be between 1 and 24 months" sample_now, tt) /\
  process_prediction_request false unit no_model sample_now
    (Py.VDict (request_of (Py.VStr "abc"))) tt
  = (Failure "horizon_window must be a valid integer" sample_now, tt) /\
  (exists r st',
     process_prediction_request false unit no_model sample_now
       (Py.VDict (sample_payload [])) tt = (Success r, st') /\
     horizon_window r = 1 /\ Py.len (predictions r) = 1) /\
  (exists r st',
     process_prediction_request false unit no_model sample_now
       (Py.VDict (request_of (Py.VInt 24))) tt = (Success r, st') /\
     horizon_window r = 24 /\ Py.len (predictions r) = 24).
Proof.
  split; [sample_identity|].
  destruct (horizon_validated false unit no_model sample_now
              (request_of (Py.VInt 0)) sample_input tt ltac:(sample_identity))
    as (H0 & _).
  destruct (horizon_validated false unit no_model sample_now
              (request_of (Py.VInt 25)) sample_input tt ltac:(sample_identity))
    as (_ & H25 & _).
  destruct (horizon_validated false unit no_model sample_now
              (request_of (Py.VStr "abc")) sample_input tt ltac:(sample_identity))
    as (_ & _ & _ & Habc & _).
  destruct (horizon_validated false unit no_model sample_now
              (sample_payload []) sample_input tt ltac:(sample_identity))
    as (_ & _ & _ & _ & Habsent & _).
  destruct (horizon_validated false unit no_model sample_now
              (request_of (Py.VInt 24)) sample_input tt ltac:(sample_identity))
    as (_ & _ & _ & _ & _ & H24).
  split; [exact (H0 eq_refl)|]. split; [exact (H25 eq_refl)|].
  split; [exact (Habc eq_refl)|]. split; [exact (Habsent eq_refl)|].
  apply (H24 24 eq_refl). lia.
Defined.

Lemma simulation_prices_witness :
  valid_request (request_of (Py.VInt 3)) sample_input 3 /\
  exists r st',
    process_prediction_request false unit no_model sample_now
      (Py.VDict (request_of (Py.VInt 3))) tt = (Success r, st') /\
    model_used r = "simulation" /\
    note r = Some "Using simulated data. Deploy with model files for real predictions." /\
    successful_predictions r = 3 /\
    failed_predictions r = 0 /\
    map predicted_price (predictions r)
    = [Some 20.0%float; Some 20.5%float; Some 21.0%float] /\
    price_statistics r
    = mkStatistics (Some 20.0%float) (Some 21.0%float) (Some 20.5%float) "increasing".
Proof.
  assert (Hv : valid_request (request_of (Py.VInt 3)) sample_input 3) by sample_valid.
  split; [exact Hv|].
  destruct (simulation_prices unit no_model false sample_now _ _ _ tt Hv)
    as (r & st' & Hp & _ & Hsim).
  destruct (Hsim eq_refl) as (_ & Hused & Hnote & Hok & Hfailed & _ & Hthree).
  exists r, st'. split; [exact Hp|]. split; [exact Hused|]. split; [exact Hnote|].
  split; [exact Hok|]. split; [exact Hfailed|]. exact (Hthree eq_refl).
Defined.

Lemma simulation_repeatable_witness :
  valid_request (request_of (Py.VInt 3)) sample_input 3 /\
  exists r1 r2,
    process_prediction_request false unit no_model sample_now
      (Py.VDict (request_of (Py.VInt 3))) tt = (Success r1, tt) /\
    process_prediction_request false unit no_model sample_later
      (Py.VDict (request_of (Py.VInt 3))) tt = (Success r2, tt) /\
    timestamp r1 = sample_now /\
    r2 = at_time sample_later r1.
Proof.
  assert (Hv : valid_request (request_of (Py.VInt 3)) sample_input 3) by sample_valid.
  split; [exact Hv|].
  exact (simulation_repeatable unit no_model sample_now sample_later _ _ _ tt Hv).
Defined.

(** C8, as stated, fails: two runs of the simulation on one valid request,
    made at two readings of the clock, give two different payloads (they
    differ in ["timestamp"]). *)
Lemma simulation_timestamp_differs :
  valid_request (request_of (Py.VInt 3)) sample_input 3 /\
  process_prediction_request false unit no_model sample_now
    (Py.VDict (request_of (Py.VInt 3))) tt
  <> process_prediction_request false unit no_model sample_later
       (Py.VDict (request_of (Py.VInt 3))) tt.
Proof.
  split; [sample_valid|].
  intros H.
  apply (f_equal (fun out =>
           match fst out with
           | Success r => timestamp r
           | Failure _ t => t
           end)) in H.
  vm_compute in H. discriminate H.
Qed.

Lemma falsy_price_fails_witness :
  valid_request (request_of (Py.VInt 5)) sample_input 5 /\
  replies Z flaky_model sample_input (Py.range 5) 0 !! 3%nat = Some (Py.Ok (MInt 0)) /\
  exists r st',
    process_prediction_request true Z flaky_model sample_now
      (Py.VDict (request_of (Py.VInt 5))) 0 = (Success r, st') /\
    exists q, predictions r !! 3%nat = Some q /\
      period q = 4 /\
      predicted_price q = None /\
      error q = Some "Prediction failed for this period".
Proof.
  assert (Hv : valid_request (request_of (Py.VInt 5)) sample_input 5) by sample_valid.
  split; [exact Hv|]. split; [reflexivity|].
  destruct (falsy_price_fails Z flaky_model sample_now _ _ _ 0 Hv)
    as (r & st' & Hp & Hfalsy & _).
  exists r, st'. split; [exact Hp|].
  exact (Hfalsy 3%nat (MInt 0) eq_refl eq_refl).
Defined.

Lemma horizon_truncated_witness :
  identity_fields (request_of (Py.VFloat 2.9%float)) sample_input /\
  (exists r st',
     process_prediction_request false unit no_model sample_now
       (Py.VDict (request_of (Py.VFloat 2.9%float))) tt = (Success r, st') /\
     horizon_window r = 2 /\ Py.len (predictions r) = 2) /\
  process_prediction_request false unit no_model sample_now
    (Py.VDict (request_of (Py.VStr "2.9"))) tt
  = (Failure "horizon_window must be a valid integer" sample_now, tt) /\
  process_prediction_request false unit no_model sample_now
    (Py.VDict (request_of (Py.VBool true))) tt
  = process_prediction_request false unit no_model sample_now
      (Py.VDict (<["horizon_window" := Py.VInt 1]> (request_of (Py.VBool true)))) tt /\
  process_prediction_request false unit no_model sample_now
    (Py.VDict (request_of (Py.VFloat 0.5%float))) tt
  = process_prediction_request false unit no_model sample_now
      (Py.VDict (<["horizon_window" := Py.VInt 0]> (request_of (Py.VFloat 0.5%float)))) tt.
Proof.
  split; [sample_identity|].
  destruct (horizon_truncated false unit no_model sample_now
              (request_of (Py.VFloat 2.9%float)) sample_input tt ltac:(sample_identity))
    as (_ & _ & _ & _ & _ & Hfloat & _).
  destruct (horizon_truncated false unit no_model sample_now
              (request_of (Py.VStr "2.9")) sample_input tt ltac:(sample_identity))
    as (_ & _ & _ & _ & _ & _ & Hstr).
  destruct (horizon_truncated false unit no_model sample_now
              (request_of (Py.VBool true)) sample_input tt ltac:(sample_identity))
    as (_ & Hbool & _).
  destruct (horizon_truncated false unit no_model sample_now
              (request_of (Py.VFloat 0.5%float)) sample_input tt ltac:(sample_identity))
    as (Hhalf & _).
  split; [exact (Hfloat eq_refl)|]. split; [exact (Hstr eq_refl)|].
  split; [exact (Hbool true eq_refl)|].
  exact (Hhalf 0.5%float 0 eq_refl eq_refl).
Defined.

(** ** Payloads outside the contract *)

(** An identity field that is not a text fails in [strip]: the outer handler
    reports it, whatever else the request holds. *)
Example mistyped_field_error :
  process_prediction_request false unit no_model sample_now
    (Py.VDict mistyped_request) tt
  = (Failure "Prediction processing error: 'int' object has no attribute 'strip'"
       sample_now, tt).
Proof. vm_compute. reflexivity. Qed.

(** A payload that is not an object fails in [get]. *)
Example not_an_object_error :
  process_prediction_request false unit no_model sample_now (Py.VList []) tt
  = (Failure "Prediction processing error: 'list' object has no attribute 'get'"
       sample_now, tt).
Proof. vm_compute. reflexivity. Qed.

(** An infinite horizon raises [OverflowError] in [int], which the handler
    of the horizon does not catch; NaN raises [ValueError], which it does. *)
Example infinite_horizon_error :
  process_prediction_request false unit no_model sample_now
    (Py.VDict (request_of (Py.VFloat infinity))) tt
  = (Failure "Prediction processing error: cannot convert float infinity to integer"
       sample_now, tt)
  /\ process_prediction_request false unit no_model sample_now
       (Py.VDict (request_of (Py.VFloat nan))) tt
     = (Failure "horizon_window must be a valid integer" sample_now, tt).
Proof. split; vm_compute; reflexivity. Qed.

(** ** Rejected requests *)

Section Rejected.

Context (MODEL_LOADED : bool) (model_state : Type).
Context (predict_single_item :
  string -> string -> string -> string -> string -> Z -> Z ->
  model_state -> Py.res model_value * model_state).

#[local] Abbreviation process :=
  (process_prediction_request MODEL_LOADED model_state predict_single_item).
#[local] Abbreviation generate :=
  (generate_predictions MODEL_LOADED model_state predict_single_item).

Lemma get_strip_cases (d : gmap string Py.value) (key : string) :
  Py.get (Py.VDict d) key (Py.VStr "") ≫= Py.strip
  = match d !! key with
    | Some (Py.VStr raw) => Py.Ok (Py.str_strip raw)
    | Some v => Py.Raise (Py.no_attribute v "strip")
    | None => Py.Ok ""
    end.
Proof. simpl. destruct (d !! key) as [[]|]; reflexivity. Qed.

Lemma get_strip_ok_or_raise (d : gmap string Py.value) (key : string) :
  Py.get (Py.VDict d) key (Py.VStr "") ≫= Py.strip = Py.Ok (field_text d key)
  \/ exists v, d !! key = Some v /\ (forall s, v <> Py.VStr s) /\
       Py.get (Py.VDict d) key (Py.VStr "") ≫= Py.strip
       = Py.Raise (Py.no_attribute v "strip").
Proof.
  rewrite get_strip_cases. unfold field_text.
  destruct (d !! key) as [[]|]; eauto; right; eexists; repeat split; congruence.
Qed.

Lemma missing_params_among_keys (a b c e f name : string) :
  In name (missing_params_of a b c e f) -> In name identity_keys.
Proof.
  unfold missing_params_of, identity_keys.
  destruct (negb (Py.str_truthy a)), (negb (Py.str_truthy b)),
    (negb (Py.str_truthy c)), (negb (Py.str_truthy e)), (negb (Py.str_truthy f));
    simpl; tauto.
Qed.

(** X1: a payload that is not an object (a list, a text, a number, null) is
    answered with the failure "Prediction processing error: '<type>' object
    has no attribute 'get'", and nothing is predicted. *)
Theorem not_an_object_rejected (now : string) (data : Py.value) (st : model_state) :
  (forall d, data <> Py.VDict d) ->
  process now data st
  = (Failure ("Prediction processing error: '" +:+ Py.type_name data
              +:+ "' object has no attribute 'get'") now, st).
Proof.
  intros Hd. destruct data; try reflexivity. now destruct (Hd d).
Qed.

(** X2: when an identity field holds a value that is not a text, and the
    identity fields before it (in the order product_type, tg_code,
    country_region, country, industry) are texts or absent, the answer is the
    failure "Prediction processing error: '<type>' object has no attribute
    'strip'" for the type of that value, whatever the other fields and the
    horizon hold. *)
Theorem mistyped_field_rejected (now : string) (d : gmap string Py.value)
    (st : model_state) (before after : list string) (key : string) (v : Py.value) :
  identity_keys = before ++ key :: after ->
  (forall k, In k before -> d !! k = None \/ exists raw, d !! k = Some (Py.VStr raw)) ->
  d !! key = Some v ->
  (forall s, v <> Py.VStr s) ->
  process now (Py.VDict d) st
  = (Failure ("Prediction processing error: '" +:+ Py.type_name v
              +:+ "' object has no attribute 'strip'") now, st).
Proof.
  intros Hkeys Hbefore Hv Hns.
  assert (Hraise : Py.get (Py.VDict d) key (Py.VStr "") ≫= Py.strip
                   = Py.Raise (Py.no_attribute v "strip")).
  { rewrite get_strip_cases, Hv. destruct v; try reflexivity. now destruct (Hns s). }
  assert (Hok : forall k, In k before ->
            Py.get (Py.VDict d) k (Py.VStr "") ≫= Py.strip = Py.Ok (field_text d k)).
  { intros k Hk. rewrite get_strip_cases. unfold field_text.
    destruct (Hbefore k Hk) as [->|[raw ->]]; reflexivity. }
  unfold process_prediction_request, process_body.
  unfold identity_keys in Hkeys.
  destruct before as [|b0 [|b1 [|b2 [|b3 [|b4 rest]]]]]; simpl in Hkeys; simplify_eq;
    [..|destruct rest; discriminate];
    repeat match goal with
      | |- context [Py.get (Py.VDict d) ?k _ ≫= Py.strip] =>
          rewrite (Hok k) by (simpl; tauto); cbn [mbind res_bind Py.bind]
      end;
    rewrite Hraise; reflexivity.
Qed.

(** X3: whatever the payload, a failure carries the reading of the clock,
    leaves the state of the collaborator untouched, and its message is one of
    four: the missing parameters (a non-empty list of identity field names),
    the horizon out of range, the horizon not an integer, or a processing
    error.  A success carries the reading of the clock and between 1 and 24
    predictions, as many as its horizon. *)
Theorem failure_shape (now : string) (data : Py.value) (st : model_state) :
  match process now data st with
  | (Failure error t, st') =>
      st' = st /\ t = now /\
      ((exists names, names <> [] /\
          (forall name, In name names -> In name identity_keys) /\
          error = "Missing required parameters: " +:+ Py.join ", " names) \/
       error = "horizon_window must be between 1 and 24 months" \/
       error = "horizon_window must be a valid integer" \/
       exists m, error = "Prediction processing error: " +:+ m)
  | (Success r, _) =>
      timestamp r = now /\ horizon_window r = Py.len (predictions r) /\
      1 <= horizon_window r <= 24
  end.
Proof.
  assert (Hproc : forall m, st = st /\ now = now /\
            ((exists names, names <> [] /\
                (forall name, In name names -> In name identity_keys) /\
                "Prediction processing error: " +:+ m
                = "Missing required parameters: " +:+ Py.join ", " names) \/
             "Prediction processing error: " +:+ m
             = "horizon_window must be between 1 and 24 months" \/
             "Prediction processing error: " +:+ m
             = "horizon_window must be a valid integer" \/
             exists m', "Prediction processing error: " +:+ m
                        = "Prediction processing error: " +:+ m')).
  { intros m. split; [reflexivity|]. split; [reflexivity|]. right; right; right. eauto. }
  destruct data as [| | | | | |d]; try apply Hproc.
  unfold process_prediction_request, process_body.
  destruct (get_strip_ok_or_raise d "product_type") as [->|(v & _ & _ & ->)];
    [cbn [mbind res_bind Py.bind]|apply Hproc].
  destruct (get_strip_ok_or_raise d "tg_code") as [->|(v & _ & _ & ->)];
    [cbn [mbind res_bind Py.bind]|apply Hproc].
  destruct (get_strip_ok_or_raise d "country_region") as [->|(v & _ & _ & ->)];
    [cbn [mbind res_bind Py.bind]|apply Hproc].
  destruct (get_strip_ok_or_raise d "country") as [->|(v & _ & _ & ->)];
    [cbn [mbind res_bind Py.bind]|apply Hproc].
  destruct (get_strip_ok_or_raise d "industry") as [->|(v & _ & _ & ->)];
    [cbn [mbind res_bind Py.bind Py.get]|apply Hproc].
  destruct (missing_params_of _ _ _ _ _) as [|name names] eqn:Hmiss.
  - cbv [mret res_ret].
    destruct (Py.int _) as [h|[[] m]]; try apply Hproc;
      try (split; [reflexivity|]; split; [reflexivity|]; right; right; left; reflexivity).
    destruct ((h <? 1) || (24 <? h)) eqn:Hr.
    + split; [reflexivity|]. split; [reflexivity|]. right; left. reflexivity.
    + pose proof (generate_predictions_result MODEL_LOADED model_state
                    predict_single_item now (field_text d "product_type")
                    (field_text d "tg_code") (field_text d "country_region")
                    (field_text d "country") (field_text d "industry") h st) as Hres.
      pose proof (generate_predictions_length MODEL_LOADED model_state
                    predict_single_item now (field_text d "product_type")
                    (field_text d "tg_code") (field_text d "country_region")
                    (field_text d "country") (field_text d "industry") h st) as Hlen.
      destruct (generate _ _ _ _ _ _ _ _) as [r st']. simpl in Hres, Hlen.
      split; [rewrite Hres; reflexivity|].
      assert (Hh : horizon_window r = h) by (rewrite Hres; reflexivity).
      rewrite Hh. unfold Py.len. rewrite Hlen. lia.
  - cbv [mret res_ret]. split; [reflexivity|]. split; [reflexivity|]. left.
    exists (name :: names). split; [discriminate|]. split; [|reflexivity].
    intros n Hn. rewrite <- Hmiss in Hn. eapply missing_params_among_keys, Hn.
Qed.

(** X4: with the model loaded, a valid request calls the collaborator once
    per period, in ascending order of the periods, each call with the trimmed
    identity fields and the year and month of its period, and in the state
    the call before left: the final state is that of these calls in a row. *)
Lemma predict_loop_state (pt tg cr c ind : string) (offsets : list Z)
    (acc : list Prediction) (st : model_state) :
  MODEL_LOADED = true ->
  snd (predict_loop MODEL_LOADED model_state predict_single_item pt tg cr c ind
         offsets acc st)
  = fold_left
      (fun s month_offset =>
         snd (predict_single_item pt tg cr c ind (year_of month_offset)
                (month_of month_offset) s))
      offsets st.
Proof.
  intros ->. revert acc st.
  induction offsets as [|o offsets IH]; intros acc st; simpl; [reflexivity|].
  unfold predict_period, price_value_of.
  destruct (predict_single_item pt tg cr c ind (year_of o) (month_of o) st)
    as [reply st'].
  simpl. apply IH.
Qed.

Theorem collaborator_called_in_order (now : string) (d : gmap string Py.value)
    (i : InputParameters) (h : Z) (st : model_state) :
  MODEL_LOADED = true ->
  valid_request d i h ->
  snd (process now (Py.VDict d) st)
  = fold_left
      (fun s month_offset =>
         snd (predict_single_item (product_type i) (tg_code i) (country_region i)
                (country i) (industry i) (year_of month_offset)
                (month_of month_offset) s))
      (Py.range h) st.
Proof.
  intros HM Hv. pose proof (valid_request_int d i h Hv) as Hint.
  destruct Hv as (Hi & _ & Hr).
  rewrite (process_valid _ _ _ now d i h st Hi Hint Hr). cbn [snd].
  unfold generate_predictions.
  pose proof (predict_loop_state (product_type i) (tg_code i) (country_region i)
                (country i) (industry i) (Py.range h) [] st HM) as Hst.
  destruct (predict_loop _ _ _ _ _ _ _ _ _ _ _) as [ps st']. exact Hst.
Qed.

End Rejected.

Section Strip.

Lemma append_cons (a : ascii) (s t : string) :
  String a s +:+ t = String a (s +:+ t).
Proof. reflexivity. Qed.

Lemma append_empty (t : string) : "" +:+ t = t.
Proof. reflexivity. Qed.

Lemma lstrip_split (s : string) :
  exists pre, s = pre +:+ Py.lstrip s /\ all_space pre = true /\
    forall c, first_char (Py.lstrip s) = Some c -> Py.isspace c = false.
Proof.
  induction s as [|a s IH]; simpl.
  - exists "". repeat split. discriminate.
  - destruct (Py.isspace a) eqn:Ha.
    + destruct IH as (pre & Hs & Hp & Hf).
      exists (String a pre). simpl. rewrite Ha, Hp. repeat split; [|exact Hf].
      rewrite append_cons. f_equal. exact Hs.
    + exists "". repeat split. simpl. now intros c [= <-].
Qed.

Lemma rstrip_split (s : string) :
  exists post, s = Py.rstrip s +:+ post /\ all_space post = true /\
    forall c, last_char (Py.rstrip s) = Some c -> Py.isspace c = false.
Proof.
  induction s as [|a s IH]; simpl.
  - exists "". repeat split. discriminate.
  - destruct IH as (post & Hs & Hp & Hl).
    destruct (Py.rstrip s) as [|b r] eqn:Hr.
    + destruct (Py.isspace a) eqn:Ha.
      * exists (String a post). split; [rewrite Hs; reflexivity|].
        split; [simpl; now rewrite Ha, Hp|discriminate].
      * exists post. split; [rewrite Hs; reflexivity|]. split; [exact Hp|].
        simpl. now intros c [= <-].
    + exists post. split; [rewrite Hs; reflexivity|]. split; [exact Hp|exact Hl].
Qed.

Lemma last_char_lstrip (s : string) :
  Py.lstrip s <> "" -> last_char (Py.lstrip s) = last_char s.
Proof.
  induction s as [|a s IH]; simpl; [congruence|].
  destruct (Py.isspace a); [|reflexivity].
  intros Hn. rewrite (IH Hn). destruct s; [simpl in Hn; congruence|reflexivity].
Qed.

Lemma str_strip_split (raw : string) :
  exists pre post,
    raw = pre +:+ Py.str_strip raw +:+ post /\
    all_space pre = true /\ all_space post = true /\ trimmed (Py.str_strip raw).
Proof.
  unfold Py.str_strip.
  destruct (rstrip_split raw) as (post & Hraw & Hpost & Hlast).
  destruct (lstrip_split (Py.rstrip raw)) as (pre & Hr & Hpre & Hfirst).
  exists pre, post. split; [|split; [exact Hpre|split; [exact Hpost|]]].
  - rewrite Hraw at 1. rewrite Hr at 1.
    clear. induction pre as [|a pre IH]; [reflexivity|].
    rewrite !append_cons. now rewrite IH.
  - split; [exact Hfirst|]. intros c Hc. apply Hlast.
    rewrite <- Hc. symmetry. apply last_char_lstrip.
    intros He. rewrite He in Hc. discriminate.
Qed.

End Strip.

(** ** What a result holds *)

Section Results.

Context (MODEL_LOADED : bool) (model_state : Type).
Context (predict_single_item :
  string -> string -> string -> string -> string -> Z -> Z ->
  model_state -> Py.res model_value * model_state).

#[local] Abbreviation process :=
  (process_prediction_request MODEL_LOADED model_state predict_single_item).
#[local] Abbreviation generate :=
  (generate_predictions MODEL_LOADED model_state predict_single_item).

(** X5: the result of a valid request echoes the request: the horizon, the
    number of periods, the reading of the clock, the name of the provider, and
    the identity fields, each of which is the text of the payload without its
    leading and trailing whitespace (it is not empty and neither starts nor
    ends with whitespace). *)
Theorem request_echoed (now : string) (d : gmap string Py.value)
    (i : InputParameters) (h : Z) (st : model_state) :
  valid_request d i h ->
  exists r st',
    process now (Py.VDict d) st = (Success r, st') /\
    input_parameters r = i /\
    horizon_window r = h /\
    total_predictions r = h /\
    timestamp r = now /\
    model_used r = (if MODEL_LOADED then "tensorflow" else "simulation") /\
    forall key s, In (key, s) (identity_items i) ->
      exists raw pre post,
        d !! key = Some (Py.VStr raw) /\
        raw = pre +:+ s +:+ post /\
        all_space pre = true /\ all_space post = true /\
        trimmed s /\ s <> "".
Proof.
  intros Hv. pose proof (valid_request_int d i h Hv) as Hint.
  destruct Hv as (Hi & _ & Hr).
  eexists _, _. split; [apply (process_valid _ _ _ now d i h st Hi Hint Hr)|].
  rewrite generate_predictions_result. cbn zeta.
  cbn [input_parameters horizon_window total_predictions timestamp model_used].
  split; [destruct i; reflexivity|]. split; [reflexivity|].
  split.
  { unfold Py.len. rewrite length_zip_with, prices_along_length, range_length. lia. }
  split; [reflexivity|]. split; [reflexivity|].
  assert (Hfield : forall key s, text_field d key s ->
            exists raw pre post,
              d !! key = Some (Py.VStr raw) /\ raw = pre +:+ s +:+ post /\
              all_space pre = true /\ all_space post = true /\ trimmed s /\ s <> "").
  { intros key s (raw & Hd & Hs & Hn).
    destruct (str_strip_split raw) as (pre & post & Hraw & Hpre & Hpost & Htrim).
    rewrite Hs in Hraw, Htrim. exists raw, pre, post. auto 10. }
  destruct Hi as (H1 & H2 & H3 & H4 & H5).
  intros key s [[= <- <-]|[[= <- <-]|[[= <- <-]|[[= <- <-]|[[= <- <-]|[]]]]]];
    apply Hfield; assumption.
Qed.

Lemma generate_predictions_entry (now pt tg cr c ind : string) (h : Z)
    (st : model_state) (n : nat) (q : Prediction) :
  predictions (fst (generate now pt tg cr c ind h st)) !! n = Some q ->
  (n < Z.to_nat h)%nat /\ exists price_value, q = entry (Z.of_nat n) price_value.
Proof.
  intros Hq.
  assert (Hn : (n < Z.to_nat h)%nat).
  { rewrite <- (generate_predictions_length MODEL_LOADED model_state
                  predict_single_item now pt tg cr c ind h st).
    eapply lookup_lt_Some, Hq. }
  split; [exact Hn|].
  destruct (generate_predictions_lookup MODEL_LOADED model_state predict_single_item
              now pt tg cr c ind h st n Hn) as (pv & _ & Hp).
  exists pv. congruence.
Qed.

(** X6: every entry of the result of a valid request has a period between 1
    and the horizon, a year 2024 or 2025, a month between 1 and 12, a date of
    7 characters, the currency "USD", and either a price or the error text,
    never both and never neither. *)
Theorem entries_well_formed (now : string) (d : gmap string Py.value)
    (i : InputParameters) (h : Z) (st : model_state) :
  valid_request d i h ->
  exists r st',
    process now (Py.VDict d) st = (Success r, st') /\
    forall q, In q (predictions r) ->
      1 <= period q <= h /\
      2024 <= year q <= 2025 /\
      1 <= month q <= 12 /\
      String.length (date q) = 7%nat /\
      currency q = "USD" /\
      (predicted_price q = None <-> error q = Some "Prediction failed for this period") /\
      (predicted_price q <> None <-> error q = None).
Proof.
  intros Hv. pose proof (valid_request_int d i h Hv) as Hint.
  destruct Hv as (Hi & _ & Hr).
  eexists _, _. split; [apply (process_valid _ _ _ now d i h st Hi Hint Hr)|].
  intros q Hq. apply list_elem_of_In, list_elem_of_lookup in Hq as [n Hn].
  apply generate_predictions_entry in Hn as (Hlt & pv & ->).
  assert (Hn24 : (n < 24)%nat) by lia.
  split; [simpl; lia|].
  split; [simpl; unfold year_of; pose proof (Z.div_pos (Z.of_nat n) 12);
          assert (Z.of_nat n / 12 < 2) by (apply Z.div_lt_upper_bound; lia); lia|].
  split; [simpl; unfold month_of; pose proof (Z.mod_pos_bound (Z.of_nat n) 12); lia|].
  split; [rewrite date_label by exact Hn24; reflexivity|].
  split; [reflexivity|].
  destruct pv; simpl; split; split; congruence.
Qed.

(** X7: in the result of a valid request, two entries that follow each
    other are one period and one calendar month apart (December of a year is
    followed by January of the next). *)
Theorem consecutive_months (now : string) (d : gmap string Py.value)
    (i : InputParameters) (h : Z) (st : model_state) :
  valid_request d i h ->
  exists r st',
    process now (Py.VDict d) st = (Success r, st') /\
    forall (n : nat) (q q' : Prediction),
      predictions r !! n = Some q ->
      predictions r !! S n = Some q' ->
      period q' = period q + 1 /\
      12 * year q' + month q' = 12 * year q + month q + 1.
Proof.
  intros Hv. pose proof (valid_request_int d i h Hv) as Hint.
  destruct Hv as (Hi & _ & Hr).
  eexists _, _. split; [apply (process_valid _ _ _ now d i h st Hi Hint Hr)|].
  intros n q q' Hq Hq'.
  apply generate_predictions_entry in Hq as (_ & pv & ->).
  apply generate_predictions_entry in Hq' as (_ & pv' & ->).
  simpl. unfold year_of, month_of. split; [lia|].
  pose proof (Z.div_mod (Z.of_nat n) 12 ltac:(lia)).
  pose proof (Z.div_mod (Z.of_nat (S n)) 12 ltac:(lia)).
  lia.
Qed.

End Results.

Section Decimal.

Lemma of_uint_acc_value (d : Decimal.uint) (p : positive) :
  Npos (Pos.of_uint_acc d p) = digits_value (Npos p) d.
Proof.
  revert p. induction d; intros p; simpl; [reflexivity|..];
    rewrite IHd; f_equal; lia.
Qed.

Lemma of_uint_value (d : Decimal.uint) : Pos.of_uint d = digits_value 0 d.
Proof.
  induction d; simpl; [reflexivity|exact IHd|..]; apply of_uint_acc_value.
Qed.

Lemma int_digits_decimal (d : Decimal.uint) (acc : N) :
  Py.int_digits (Z.of_N acc) true (NilEmpty.string_of_uint d)
  = Some (Z.of_N (digits_value acc d)).
Proof.
  revert acc. induction d; intros acc; simpl; [reflexivity|..];
    match goal with
    | |- Py.int_digits ?z true _ = _ =>
        match goal with
        | |- _ = Some (Z.of_N (digits_value ?a _)) =>
            replace z with (Z.of_N a) by lia; apply IHd
        end
    end.
Qed.

Lemma int_digits_decimal_start (d : Decimal.uint) :
  d <> Decimal.Nil ->
  Py.int_digits 0 false (NilEmpty.string_of_uint d)
  = Some (Z.of_N (digits_value 0 d)).
Proof.
  intros Hd. destruct d; [congruence|..]; simpl;
    match goal with
    | |- Py.int_digits ?z true _ = _ =>
        match goal with
        | |- _ = Some (Z.of_N (digits_value ?a _)) =>
            replace z with (Z.of_N a) by lia; apply int_digits_decimal
        end
    end.
Qed.

Lemma all_digits_decimal (d : Decimal.uint) :
  all_digits (NilEmpty.string_of_uint d) = true.
Proof. induction d; simpl; auto. Qed.

Lemma digit_count_all_digits (s : string) :
  all_digits s = true -> Py.digit_count s = String.length s.
Proof.
  induction s as [|c s IH]; simpl; [reflexivity|].
  destruct (Py.digit_of c); [|discriminate]. intros H. now rewrite (IH H).
Qed.

Lemma digit_not_space (c : ascii) (k : Z) :
  Py.digit_of c = Some k -> Py.int_isspace c = false.
Proof.
  unfold Py.digit_of, Py.int_isspace.
  destruct ((48 <=? N_of_ascii c)%N && (N_of_ascii c <=? 57)%N) eqn:Hd; [|discriminate].
  intros _. apply andb_true_iff in Hd as [H1 H2].
  apply N.leb_le in H1, H2.
  repeat match goal with
         | |- context [(?a <=? ?b)%N] => destruct (N.leb_spec a b)
         | |- context [(?a =? ?b)%N] => destruct (N.eqb_spec a b)
         end; simpl; (reflexivity || lia).
Qed.

Lemma all_digits_no_space (s : string) :
  all_digits s = true -> all_with (fun c => negb (Py.int_isspace c)) s = true.
Proof.
  induction s as [|c s IH]; simpl; [reflexivity|].
  destruct (Py.digit_of c) eqn:Hc; [|discriminate].
  intros H. now rewrite (digit_not_space c _ Hc), (IH H).
Qed.

End Decimal.

Section Whitespace.

Variable space : ascii -> bool.

Lemma lstrip_with_none (s : string) :
  all_with (fun c => negb (space c)) s = true -> Py.lstrip_with space s = s.
Proof.
  destruct s as [|c s]; simpl; [reflexivity|].
  destruct (space c); [discriminate|reflexivity].
Qed.

Lemma rstrip_with_none (s : string) :
  all_with (fun c => negb (space c)) s = true -> Py.rstrip_with space s = s.
Proof.
  induction s as [|c s IH]; simpl; [reflexivity|].
  destruct (space c) eqn:Hc; [discriminate|]. simpl. intros Hs.
  rewrite (IH Hs). destruct s; reflexivity.
Qed.

Lemma lstrip_with_prefix (pre t : string) :
  all_with space pre = true ->
  Py.lstrip_with space (pre +:+ t) = Py.lstrip_with space t.
Proof.
  induction pre as [|c pre IH]; simpl; [reflexivity|].
  destruct (space c); [exact IH|discriminate].
Qed.

Lemma rstrip_with_all (post : string) :
  all_with space post = true -> Py.rstrip_with space post = "".
Proof.
  induction post as [|c post IH]; simpl; [reflexivity|].
  destruct (space c); [|discriminate]. simpl. intros H. now rewrite (IH H).
Qed.

Lemma rstrip_with_suffix (t post : string) :
  all_with space post = true ->
  Py.rstrip_with space (t +:+ post) = Py.rstrip_with space t.
Proof.
  intros Hp. induction t as [|c t IH]; [apply rstrip_with_all, Hp|].
  rewrite append_cons. simpl. now rewrite IH.
Qed.

Lemma rstrip_with_prefix (pre u : string) :
  all_with space pre = true ->
  Py.rstrip_with space (pre +:+ u)
  = match Py.rstrip_with space u with
    | EmptyString => ""
    | r => pre +:+ r
    end.
Proof.
  induction pre as [|c pre IH];
    [intros _; rewrite append_empty; destruct (Py.rstrip_with space u); reflexivity|].
  rewrite append_cons. simpl.
  destruct (space c); [|discriminate]. simpl. intros Hp. rewrite (IH Hp).
  destruct (Py.rstrip_with space u) as [|b r]; [reflexivity|].
  destruct pre; reflexivity.
Qed.

Lemma strip_with_padded (pre s post : string) :
  all_with space pre = true -> all_with space post = true ->
  Py.lstrip_with space (Py.rstrip_with space (pre +:+ s +:+ post))
  = Py.lstrip_with space (Py.rstrip_with space s).
Proof.
  intros Hpre Hpost.
  rewrite (rstrip_with_prefix pre _ Hpre), (rstrip_with_suffix s post Hpost).
  destruct (Py.rstrip_with space s) as [|b r]; [reflexivity|].
  apply lstrip_with_prefix, Hpre.
Qed.

Lemma rstrip_with_head (c : ascii) (rest : string) :
  space c = false ->
  exists r, Py.rstrip_with space (String c rest) = String c r.
Proof.
  intros Hc. simpl. destruct (Py.rstrip_with space rest); rewrite ?Hc; eauto.
Qed.

End Whitespace.

Section IntOfStr.

Lemma int_of_str_padded (pre s post : string) :
  int_padding pre = true -> int_padding post = true ->
  Py.int_of_str (pre +:+ s +:+ post) = Py.int_of_str s.
Proof.
  intros Hpre Hpost. unfold Py.int_of_str.
  now rewrite (strip_with_padded Py.int_isspace pre s post Hpre Hpost).
Qed.

Lemma int_of_str_digits (s : string) :
  all_digits s = true ->
  Py.int_of_str s = Py.int_body s /\ Py.int_of_str (String "-" s) = Z.opp <$> Py.int_body s.
Proof.
  intros Hs. pose proof (all_digits_no_space s Hs) as Hn. unfold Py.int_of_str.
  rewrite (rstrip_with_none Py.int_isspace s Hn), (lstrip_with_none Py.int_isspace s Hn).
  rewrite (rstrip_with_none Py.int_isspace (String "-" s)) by exact Hn.
  rewrite (lstrip_with_none Py.int_isspace (String "-" s)) by exact Hn.
  split; [|reflexivity].
  destruct s as [|c s]; [reflexivity|]. simpl in Hs.
  destruct (Py.digit_of c) eqn:Hc; [|discriminate].
  destruct (Ascii.eqb_spec c "-") as [->|_]; [discriminate|].
  destruct (Ascii.eqb_spec c "+") as [->|_]; [discriminate|].
  destruct c as [[] [] [] [] [] [] [] []]; try reflexivity; discriminate.
Qed.

Lemma int_body_decimal (d : Decimal.uint) :
  d <> Decimal.Nil ->
  (String.length (NilEmpty.string_of_uint d) <= Py.max_str_digits)%nat ->
  Py.int_body (NilEmpty.string_of_uint d) = Some (Z.of_N (Pos.of_uint d)).
Proof.
  intros Hd Hlen. unfold Py.int_body.
  rewrite (digit_count_all_digits _ (all_digits_decimal d)).
  apply Nat.ltb_ge in Hlen. rewrite Hlen.
  rewrite of_uint_value. apply int_digits_decimal_start, Hd.
Qed.

(** [int(str(n)) == n], up to the limit on the digits. *)
Lemma int_of_str_of_int (n : Z) :
  (String.length (Py.str_of_int (Z.abs n)) <= Py.max_str_digits)%nat ->
  Py.int_of_str (Py.str_of_int n) = Some n.
Proof.
  unfold Py.str_of_int. destruct n as [|p|p]; [reflexivity|..]; simpl;
    unfold NilZero.string_of_uint;
    pose proof (DecimalPos.Unsigned.to_uint_nonnil p) as Hn;
    assert (Hs : match Pos.to_uint p with
                 | Decimal.Nil => "0"
                 | _ => NilEmpty.string_of_uint (Pos.to_uint p)
                 end = NilEmpty.string_of_uint (Pos.to_uint p))
      by (destruct (Pos.to_uint p); [congruence|..]; reflexivity);
    rewrite Hs; intros Hlen;
    destruct (int_of_str_digits _ (all_digits_decimal (Pos.to_uint p))) as [Hpos Hneg].
  - rewrite Hpos, (int_body_decimal _ Hn Hlen), DecimalPos.Unsigned.of_to. reflexivity.
  - rewrite Hneg, (int_body_decimal _ Hn Hlen), DecimalPos.Unsigned.of_to. reflexivity.
Qed.

Lemma int_of_str_control (c : ascii) (rest : string) :
  (28 <= N_of_ascii c <= 31)%N -> Py.int_of_str (String c rest) = None.
Proof.
  intros Hc.
  assert (Hs : Py.int_isspace c = false).
  { unfold Py.int_isspace.
    repeat match goal with
           | |- context [(?a <=? ?b)%N] => destruct (N.leb_spec a b)
           | |- context [(?a =? ?b)%N] => destruct (N.eqb_spec a b)
           end; simpl; (reflexivity || lia). }
  assert (Hd : Py.digit_of c = None).
  { unfold Py.digit_of.
    destruct (N.leb_spec 48 (N_of_ascii c)); [lia|reflexivity]. }
  unfold Py.int_of_str.
  destruct (rstrip_with_head Py.int_isspace c rest Hs) as [r ->].
  simpl. rewrite Hs.
  assert (Hbody : Py.int_body (String c r) = None).
  { unfold Py.int_body. destruct (_ <? _)%nat; [reflexivity|].
    simpl. rewrite Hd.
    destruct (Ascii.eqb c "_"); reflexivity. }
  destruct (Ascii.eqb_spec c "-") as [->|_]; [simpl in Hc; lia|].
  destruct (Ascii.eqb_spec c "+") as [->|_]; [simpl in Hc; lia|].
  rewrite <- Hbody.
  destruct c as [[] [] [] [] [] [] [] []]; try reflexivity; simpl in Hc; lia.
Qed.

Lemma int_of_str_too_long (s : string) :
  all_digits s = true -> (Py.max_str_digits < String.length s)%nat ->
  Py.int_of_str s = None.
Proof.
  intros Hs Hlen. rewrite (proj1 (int_of_str_digits s Hs)). unfold Py.int_body.
  rewrite (digit_count_all_digits s Hs).
  apply Nat.ltb_lt in Hlen. now rewrite Hlen.
Qed.

End IntOfStr.

Section TextHorizon.

Context (MODEL_LOADED : bool) (model_state : Type).
Context (predict_single_item :
  string -> string -> string -> string -> string -> Z -> Z ->
  model_state -> Py.res model_value * model_state).

#[local] Abbreviation process :=
  (process_prediction_request MODEL_LOADED model_state predict_single_item).

(** X8: with the identity fields present, a horizon given as a text is read
    by [int]: a text that reads as the integer [h] is answered as the integer
    [h] is, range check included, and any other text is refused as not an
    integer.  The decimal text of an integer of at most 4300 digits, as [str]
    prints it, with any of the whitespace of [int] around it (tab to carriage
    return, space, U+0085, U+00A0), reads as that integer; a text that starts
    with one of U+001C to U+001F, and a text of more than 4300 digits, do not
    read as an integer. *)
Theorem text_horizon_parsed (now : string) (d : gmap string Py.value)
    (i : InputParameters) (s : string) (st : model_state) :
  identity_fields d i ->
  d !! "horizon_window" = Some (Py.VStr s) ->
  (forall h, Py.int_of_str s = Some h ->
     process now (Py.VDict d) st
     = process now (Py.VDict (<["horizon_window" := Py.VInt h]> d)) st) /\
  (Py.int_of_str s = None ->
     process now (Py.VDict d) st
     = (Failure "horizon_window must be a valid integer" now, st)) /\
  (forall (n : Z) (pre post : string),
     int_padding pre = true -> int_padding post = true ->
     (String.length (Py.str_of_int (Z.abs n)) <= 4300)%nat ->
     s = pre +:+ Py.str_of_int n +:+ post ->
     Py.int_of_str s = Some n) /\
  (forall (c : ascii) (rest : string),
     (28 <= N_of_ascii c <= 31)%N -> s = String c rest ->
     Py.int_of_str s = None) /\
  (all_digits s = true -> (4300 < String.length s)%nat -> Py.int_of_str s = None).
Proof.
  intros Hi Hs. split; [|split; [|split; [|split]]].
  - intros h Hh. apply (process_same_int _ _ _ now d i _ st Hi).
    rewrite (horizon_of_lookup d _ Hs). simpl. now rewrite Hh.
  - intros Hn. rewrite (process_identity_present _ _ _ now d i st Hi).
    rewrite (horizon_of_lookup d _ Hs). simpl. now rewrite Hn.
  - intros n pre post Hpre Hpost Hlen ->.
    rewrite (int_of_str_padded pre _ post Hpre Hpost). apply int_of_str_of_int, Hlen.
  - intros c rest Hc ->. apply int_of_str_control, Hc.
  - intros Hd Hlen. apply int_of_str_too_long; assumption.
Qed.

End TextHorizon.

(** ** Counts and statistics *)

Section Counts.

Context (MODEL_LOADED : bool) (model_state : Type).
Context (predict_single_item :
  string -> string -> string -> string -> string -> Z -> Z ->
  model_state -> Py.res model_value * model_state).

#[local] Abbreviation process :=
  (process_prediction_request MODEL_LOADED model_state predict_single_item).
#[local] Abbreviation generate :=
  (generate_predictions MODEL_LOADED model_state predict_single_item).

Lemma entries_error_or_price (offsets : list Z) (prices : list (option float)) :
  Forall (fun q => has_error q = negb (has_price q)) (zip_with entry offsets prices).
Proof.
  revert prices. induction offsets as [|o offsets IH]; intros [|pv prices]; simpl;
    try constructor; [destruct pv; reflexivity|apply IH].
Qed.

Lemma filter_complement_length (ps : list Prediction) :
  Forall (fun q => has_error q = negb (has_price q)) ps ->
  (length (List.filter has_error ps) + length (List.filter has_price ps)
   = length ps)%nat.
Proof.
  induction 1 as [|q ps Hq _ IH]; simpl; [reflexivity|].
  rewrite Hq. destruct (has_price q); simpl; lia.
Qed.

Lemma prices_length (ps : list Prediction) :
  length (omap predicted_price ps) = length (List.filter has_price ps).
Proof.
  induction ps as [|q ps IH]; [reflexivity|].
  change (omap predicted_price (q :: ps))
    with (match predicted_price q with
          | Some x => x :: omap predicted_price ps
          | None => omap predicted_price ps
          end).
  simpl. unfold has_price at 1.
  destruct (predicted_price q); simpl; now rewrite IH.
Qed.

Lemma statistics_absent (ps : list Prediction) :
  (List.filter has_price ps = [] ->
   statistics_of ps = mkStatistics None None None "unknown") /\
  (List.filter has_price ps <> [] ->
   min_price (statistics_of ps) <> None /\ max_price (statistics_of ps) <> None /\
   avg_price (statistics_of ps) <> None /\ price_trend (statistics_of ps) <> "unknown").
Proof.
  pose proof (prices_length ps) as Hlen.
  unfold statistics_of. rewrite prices_of_successful.
  destruct (omap predicted_price ps) as [|first rest]; split; intros Hf.
  - reflexivity.
  - destruct (List.filter has_price ps); [congruence|discriminate].
  - rewrite Hf in Hlen. discriminate.
  - simpl. repeat split; try discriminate.
    unfold trend_of. destruct (_ && _); [discriminate|]. destruct (_ && _); discriminate.
Qed.

(** X9: in the result of a valid request the counts and the statistics
    agree: [successful] counts the entries with a price and [failed] those
    with an error, both are non-negative and add up to the horizon; the
    statistics are all absent with the trend "unknown" exactly when no period
    succeeded, and min, max and avg are present with another trend exactly
    when one did. *)
Theorem counts_and_statistics (now : string) (d : gmap string Py.value)
    (i : InputParameters) (h : Z) (st : model_state) :
  valid_request d i h ->
  exists r st',
    process now (Py.VDict d) st = (Success r, st') /\
    successful_predictions r = Py.len (List.filter has_price (predictions r)) /\
    failed_predictions r = Py.len (List.filter has_error (predictions r)) /\
    0 <= successful_predictions r /\ 0 <= failed_predictions r /\
    successful_predictions r + failed_predictions r = h /\
    (successful_predictions r = 0 <->
     price_statistics r = mkStatistics None None None "unknown") /\
    (0 < successful_predictions r <->
     min_price (price_statistics r) <> None /\
     max_price (price_statistics r) <> None /\
     avg_price (price_statistics r) <> None /\
     price_trend (price_statistics r) <> "unknown").
Proof.
  intros Hv. pose proof (valid_request_int d i h Hv) as Hint.
  destruct Hv as (Hi & _ & Hr).
  eexists _, _. split; [apply (process_valid _ _ _ now d i h st Hi Hint Hr)|].
  rewrite generate_predictions_result. cbn zeta.
  cbn [successful_predictions failed_predictions predictions price_statistics].
  set (ps := zip_with entry (Py.range h) _).
  assert (Hps : length ps = Z.to_nat h).
  { unfold ps. rewrite length_zip_with, prices_along_length, range_length. lia. }
  pose proof (filter_complement_length ps (entries_error_or_price _ _)) as Hc.
  fold (successful_of ps) in Hc. unfold Py.len.
  destruct (statistics_absent ps) as [Hnone Hsome]. fold (successful_of ps) in Hnone, Hsome.
  split; [reflexivity|]. split; [lia|]. split; [lia|]. split; [lia|]. split; [lia|].
  split; split.
  - intros H0. apply Hnone. destruct (successful_of ps); [reflexivity|simpl in H0; lia].
  - intros Hs. destruct (successful_of ps) as [|q l] eqn:Hq; [reflexivity|].
    destruct (Hsome ltac:(discriminate)) as (Hm & _). rewrite Hs in Hm. now destruct Hm.
  - intros Hp. apply Hsome. destruct (successful_of ps); [simpl in Hp; lia|discriminate].
  - intros (Hm & _). destruct (successful_of ps) as [|q l] eqn:Hq; [|simpl; lia].
    rewrite (Hnone eq_refl) in Hm. now destruct Hm.
Qed.

End Counts.

Section AllFail.

Context (model_state : Type).
Context (predict_single_item :
  string -> string -> string -> string -> string -> Z -> Z ->
  model_state -> Py.res model_value * model_state).

#[local] Abbreviation process :=
  (process_prediction_request true model_state predict_single_item).

Lemma zip_with_entry_none (offsets : list Z) (prices : list (option float)) :
  Forall (fun pv => pv = None) prices ->
  List.filter has_price (zip_with entry offsets prices) = [] /\
  Forall (fun q => predicted_price q = None /\
                   error q = Some "Prediction failed for this period")
    (zip_with entry offsets prices).
Proof.
  intros Hp. revert offsets.
  induction Hp as [|pv prices -> _ IH]; intros [|o offsets]; simpl;
    try (split; [reflexivity|constructor]).
  destruct (IH offsets) as [Hf Ha]. split; [exact Hf|].
  constructor; [split; reflexivity|exact Ha].
Qed.

(** X10: with the model loaded, when every call of the collaborator raises,
    returns no value or returns a falsy one, the valid request still succeeds:
    it has one entry per period, each without a price and with the error
    text, [successful = 0], [failed] is the horizon, and the statistics are
    absent with the trend "unknown". *)
Theorem every_period_failed (now : string) (d : gmap string Py.value)
    (i : InputParameters) (h : Z) (st : model_state) :
  valid_request d i h ->
  Forall (fun reply => failed_reply reply \/
                       exists v, reply = Py.Ok v /\ truthy v = false)
    (replies model_state predict_single_item i (Py.range h) st) ->
  exists r st',
    process now (Py.VDict d) st = (Success r, st') /\
    successful_predictions r = 0 /\
    failed_predictions r = h /\
    price_statistics r = mkStatistics None None None "unknown" /\
    Py.len (predictions r) = h /\
    Forall (fun q => predicted_price q = None /\
                     error q = Some "Prediction failed for this period")
      (predictions r).
Proof.
  intros Hv Hall. pose proof (valid_request_int d i h Hv) as Hint.
  destruct Hv as (Hi & _ & Hr).
  eexists _, _. split; [apply (process_valid _ _ _ now d i h st Hi Hint Hr)|].
  rewrite generate_predictions_result. cbn zeta.
  cbn [successful_predictions failed_predictions predictions price_statistics].
  rewrite (prices_along_model true _ _ i (Py.range h) st eq_refl).
  set (rs := replies model_state predict_single_item i (Py.range h) st) in *.
  assert (Hnone : Forall (fun pv => pv = None) (map model_price rs)).
  { apply Forall_map. eapply Forall_impl; [exact Hall|].
    intros reply [Hf|(v & -> & Hf)];
      [apply model_price_failed, Hf|apply model_price_falsy, Hf]. }
  destruct (zip_with_entry_none (Py.range h) _ Hnone) as [Hf Ha].
  assert (Hlen : Py.len (zip_with entry (Py.range h) (map model_price rs)) = h).
  { unfold Py.len, rs. rewrite length_zip_with, length_map, replies_length, range_length.
    lia. }
  unfold successful_of. rewrite Hf, Hlen.
  split; [reflexivity|]. split; [unfold Py.len; simpl; lia|].
  split; [|split; [reflexivity|exact Ha]].
  destruct (statistics_absent (zip_with entry (Py.range h) (map model_price rs)))
    as [Hs _]. apply Hs, Hf.
Qed.

End AllFail.

Section SimulationStatistics.

Context (model_state : Type).
Context (predict_single_item :
  string -> string -> string -> string -> string -> Z -> Z ->
  model_state -> Py.res model_value * model_state).

#[local] Abbreviation process :=
  (process_prediction_request false model_state predict_single_item).

Lemma simulation_statistics_of (n : nat) :
  (1 <= n <= 24)%nat ->
  statistics_of
    (map (fun o => entry o (Some (simulated_price o))) (Py.range (Z.of_nat n)))
  = mkStatistics (Some 20.0%float)
      (Some (Py.to_float (39 + Z.of_nat n) / 2)%float)
      (Some (Py.to_float (79 + Z.of_nat n) / 4)%float)
      (if Z.of_nat n =? 1 then "stable" else "increasing").
Proof.
  intros Hn. destruct n as [|n]; [lia|].
  do 24 (destruct n as [|n]; [vm_compute; reflexivity|]). lia.
Qed.

(** X11: in simulation, the statistics of a valid request of horizon [h]
    are min 20.0, max [20 + (h-1)/2], avg [20 + (h-1)/4] (rounding to two
    places changes nothing), and the trend "increasing", but "stable" for a
    horizon of 1. *)
Theorem simulation_statistics (now : string) (d : gmap string Py.value)
    (i : InputParameters) (h : Z) (st : model_state) :
  valid_request d i h ->
  exists r st',
    process now (Py.VDict d) st = (Success r, st') /\
    price_statistics r
    = mkStatistics (Some 20.0%float)
        (Some (Py.to_float (39 + h) / 2)%float)
        (Some (Py.to_float (79 + h) / 4)%float)
        (if h =? 1 then "stable" else "increasing").
Proof.
  intros Hv. pose proof (valid_request_int d i h Hv) as Hint.
  destruct Hv as (Hi & _ & Hr).
  eexists _, _. split; [apply (process_valid _ _ _ now d i h st Hi Hint Hr)|].
  rewrite generate_predictions_result. cbn zeta. cbn [price_statistics].
  rewrite simulation_entries.
  replace h with (Z.of_nat (Z.to_nat h)) by lia.
  apply simulation_statistics_of. lia.
Qed.

End SimulationStatistics.

Section Health.

Context (MODEL_LOADED : bool) (model_state : Type).
Context (predict_single_item :
  string -> string -> string -> string -> string -> Z -> Z ->
  model_state -> Py.res model_value * model_state).

#[local] Abbreviation process :=
  (process_prediction_request MODEL_LOADED model_state predict_single_item).

Lemma advertised_required_keys (now : string) :
  advertised_required (health_info MODEL_LOADED now) = identity_keys.
Proof. vm_compute. reflexivity. Qed.

(** X12: what [do_GET] advertises is what the request handler enforces, on
    payloads whose identity fields are texts when present: the fields named
    under ["required_fields"] are the ones reported missing when blank, in
    that order; with all of them present and no ["horizon_window"] (advertised
    as optional) the request succeeds with a horizon of 1; ["model_loaded"] is
    the flag, and it is true exactly when results name "tensorflow". *)
Theorem advertised_contract_enforced (asked now : string) (d : gmap string Py.value)
    (st : model_state) :
  text_or_absent d ->
  let info := health_info MODEL_LOADED asked in
  item info "model_loaded" = Some (Py.VBool MODEL_LOADED) /\
  advertised_optional info "horizon_window" = true /\
  (List.filter (blank d) (advertised_required info) <> [] ->
   process now (Py.VDict d) st
   = (Failure ("Missing required parameters: "
               +:+ Py.join ", " (List.filter (blank d) (advertised_required info)))
        now, st)) /\
  (List.filter (blank d) (advertised_required info) = [] ->
   d !! "horizon_window" = None ->
   exists r st',
     process now (Py.VDict d) st = (Success r, st') /\
     horizon_window r = 1 /\
     (model_used r = "tensorflow" <-> item info "model_loaded" = Some (Py.VBool true))).
Proof.
  intros Ht info. subst info. rewrite advertised_required_keys.
  split; [reflexivity|]. split; [reflexivity|].
  fold (missing_fields d). split.
  - intros Hm.
    unfold process_prediction_request, process_body.
    do 5 (rewrite (get_strip_text_or_absent d) by (exact Ht || (simpl; tauto));
          cbn [mbind res_bind Py.bind]).
    cbn [Py.get mbind res_bind Py.bind].
    rewrite (missing_params_fields d Ht).
    destruct (missing_fields d) as [|name names]; [congruence|reflexivity].
  - intros Hm Hh.
    assert (Hi : identity_fields d
                   (mkInputParameters (field_text d "product_type")
                      (field_text d "tg_code") (field_text d "country_region")
                      (field_text d "country") (field_text d "industry"))).
    { assert (Hk : forall key, In key identity_keys ->
                text_field d key (field_text d key)).
      { intros key Hk.
        assert (Hb : blank d key = false).
        { destruct (blank d key) eqn:Hb; [|reflexivity].
          assert (Hin : In key (missing_fields d)).
          { unfold missing_fields. apply filter_In. split; assumption. }
          rewrite Hm in Hin. destruct Hin. }
        unfold blank in Hb. unfold field_text.
        destruct (Ht key Hk) as [Hn|[raw Hr]]; [rewrite Hn in Hb; discriminate|].
        rewrite Hr in Hb |- *. exists raw. split; [exact Hr|]. split; [reflexivity|].
        intros He. rewrite He in Hb. discriminate. }
      repeat split; apply Hk; simpl; tauto. }
    assert (Hint : Py.int (horizon_of d) = Py.Ok 1).
    { unfold horizon_of. rewrite Hh. reflexivity. }
    eexists _, _.
    split; [apply (process_valid _ _ _ now d _ 1 st Hi Hint ltac:(lia))|].
    rewrite generate_predictions_result. cbn zeta. cbn [horizon_window model_used].
    split; [reflexivity|].
    change (item (health_info MODEL_LOADED asked) "model_loaded")
      with (Some (Py.VBool MODEL_LOADED)).
    destruct MODEL_LOADED; split; intros H; (reflexivity || discriminate H).
Qed.

End Health.

Section Ignored.

Context (model_state : Type).

(** X13: in simulation the collaborator plays no part: whatever the
    payload, the answer is the same for any two collaborators, and the state
    of the collaborator is left as it was. *)
Theorem simulation_ignores_model
    (predict predict' :
       string -> string -> string -> string -> string -> Z -> Z ->
       model_state -> Py.res model_value * model_state)
    (now : string) (data : Py.value) (st : model_state) :
  process_prediction_request false model_state predict now data st
  = process_prediction_request false model_state predict' now data st
  /\ snd (process_prediction_request false model_state predict now data st) = st.
Proof.
  assert (Hloop : forall pt tg cr c ind offsets acc,
            predict_loop false model_state predict pt tg cr c ind offsets acc st
            = predict_loop false model_state predict' pt tg cr c ind offsets acc st).
  { intros pt tg cr c ind offsets.
    induction offsets as [|o offsets IH]; intros acc; simpl; [reflexivity|]. apply IH. }
  assert (Hgen : forall pt tg cr c ind h,
            generate_predictions false model_state predict now pt tg cr c ind h st
            = generate_predictions false model_state predict' now pt tg cr c ind h st).
  { intros. unfold generate_predictions. now rewrite Hloop. }
  assert (Hbody : process_body false model_state predict now data st
                  = process_body false model_state predict' now data st).
  { unfold process_body.
    destruct (Py.get data "product_type" _ ≫= Py.strip); [|reflexivity].
    destruct (Py.get data "tg_code" _ ≫= Py.strip); [|reflexivity].
    destruct (Py.get data "country_region" _ ≫= Py.strip); [|reflexivity].
    destruct (Py.get data "country" _ ≫= Py.strip); [|reflexivity].
    destruct (Py.get data "industry" _ ≫= Py.strip); [|reflexivity].
    destruct (Py.get data "horizon_window" _); [|reflexivity].
    cbn [mbind res_bind Py.bind].
    destruct (missing_params_of _ _ _ _ _); [|reflexivity].
    destruct (Py.int _); [|reflexivity].
    destruct (_ || _); [reflexivity|]. now rewrite Hgen. }
  split.
  - unfold process_prediction_request. now rewrite Hbody.
  - unfold process_prediction_request, process_body.
    destruct (Py.get data "product_type" _ ≫= Py.strip); [|reflexivity].
    destruct (Py.get data "tg_code" _ ≫= Py.strip); [|reflexivity].
    destruct (Py.get data "country_region" _ ≫= Py.strip); [|reflexivity].
    destruct (Py.get data "country" _ ≫= Py.strip); [|reflexivity].
    destruct (Py.get data "industry" _ ≫= Py.strip); [|reflexivity].
    destruct (Py.get data "horizon_window" _); [|reflexivity].
    cbn [mbind res_bind Py.bind].
    destruct (missing_params_of _ _ _ _ _); [|reflexivity].
    destruct (Py.int _) as [h|[[] m]]; try reflexivity.
    destruct (_ || _); [reflexivity|].
    pose proof (generate_simulation_state model_state predict now a a0 a1 a2 a3 h st) as Hs.
    destruct (generate_predictions _ _ _ _ _ _ _ _ _ _ _) as [r st']. exact Hs.
Qed.

End Ignored.

(** X14: failed periods do not weigh on the statistics: an entry without a
    price can be removed from (or inserted into) any list of entries without
    changing its statistics. *)
Theorem statistics_ignore_failures (before after : list Prediction) (q : Prediction) :
  predicted_price q = None ->
  statistics_of (before ++ q :: after) = statistics_of (before ++ after).
Proof.
  intros Hq. unfold statistics_of. rewrite !prices_of_successful.
  assert (Hp : omap predicted_price (before ++ q :: after)
               = omap predicted_price (before ++ after)).
  { rewrite !omap_app. f_equal.
    change (omap predicted_price (q :: after))
      with (match predicted_price q with
            | Some x => x :: omap predicted_price after
            | None => omap predicted_price after
            end).
    now rewrite Hq. }
  now rewrite Hp.
Qed.

(** ** The further statements at sample requests *)

Lemma not_an_object_rejected_witness :
  (forall d, Py.VStr "steel" <> Py.VDict d) /\
  process_prediction_request true Z flaky_model sample_now (Py.VStr "steel") 0
  = (Failure "Prediction processing error: 'str' object has no attribute 'get'"
       sample_now, 0).
Proof.
  assert (Hd : forall d, Py.VStr "steel" <> Py.VDict d) by discriminate.
  split; [exact Hd|].
  exact (not_an_object_rejected true Z flaky_model sample_now _ 0 Hd).
Defined.

Lemma mistyped_field_rejected_witness :
  mistyped_request !! "tg_code" = Some (Py.VInt 5) /\
  process_prediction_request true Z flaky_model sample_now
    (Py.VDict mistyped_request) 0
  = (Failure "Prediction processing error: 'int' object has no attribute 'strip'"
       sample_now, 0).
Proof.
  split; [reflexivity|].
  apply (mistyped_field_rejected true Z flaky_model sample_now mistyped_request 0
           ["product_type"] ["country_region"; "country"; "industry"] "tg_code"
           (Py.VInt 5)).
  - reflexivity.
  - intros k [<-|[]]. right. eexists. reflexivity.
  - reflexivity.
  - discriminate.
Defined.

Lemma collaborator_called_in_order_witness :
  valid_request (request_of (Py.VInt 3)) sample_input 3 /\
  snd (process_prediction_request true _ recording_model sample_now
         (Py.VDict (request_of (Py.VInt 3))) [])
  = [("steel", "TG-100", 2024, 1); ("steel", "TG-100", 2024, 2);
     ("steel", "TG-100", 2024, 3)].
Proof.
  assert (Hv : valid_request (request_of (Py.VInt 3)) sample_input 3) by sample_valid.
  split; [exact Hv|].
  exact (collaborator_called_in_order true _ recording_model sample_now _ _ _ []
           eq_refl Hv).
Defined.

Lemma request_echoed_witness :
  valid_request (request_of (Py.VInt 3)) sample_input 3 /\
  exists r st',
    process_prediction_request true Z flaky_model sample_now
      (Py.VDict (request_of (Py.VInt 3))) 0 = (Success r, st') /\
    input_parameters r = sample_input /\
    horizon_window r = 3 /\
    total_predictions r = 3 /\
    timestamp r = sample_now /\
    model_used r = "tensorflow" /\
    exists raw pre post,
      request_of (Py.VInt 3) !! "product_type" = Some (Py.VStr raw) /\
      raw = pre +:+ "steel" +:+ post /\
      all_space pre = true /\ all_space post = true /\
      trimmed "steel" /\ "steel" <> "".
Proof.
  assert (Hv : valid_request (request_of (Py.VInt 3)) sample_input 3) by sample_valid.
  split; [exact Hv|].
  destruct (request_echoed true Z flaky_model sample_now _ _ _ 0 Hv)
    as (r & st' & Hp & Hin & Hh & Ht & Hts & Hm & Hfields).
  exists r, st'. split; [exact Hp|]. split; [exact Hin|]. split; [exact Hh|].
  split; [exact Ht|]. split; [exact Hts|]. split; [exact Hm|].
  apply (Hfields "product_type" "steel"). left. reflexivity.
Defined.

Lemma entries_well_formed_witness :
  valid_request (request_of (Py.VInt 5)) sample_input 5 /\
  exists r st',
    process_prediction_request true Z flaky_model sample_now
      (Py.VDict (request_of (Py.VInt 5))) 0 = (Success r, st') /\
    forall q, In q (predictions r) ->
      1 <= period q <= 5 /\
      2024 <= year q <= 2025 /\
      1 <= month q <= 12 /\
      String.length (date q) = 7%nat /\
      currency q = "USD" /\
      (predicted_price q = None <-> error q = Some "Prediction failed for this period") /\
      (predicted_price q <> None <-> error q = None).
Proof.
  assert (Hv : valid_request (request_of (Py.VInt 5)) sample_input 5) by sample_valid.
  split; [exact Hv|].
  exact (entries_well_formed true Z flaky_model sample_now _ _ _ 0 Hv).
Defined.

Lemma consecutive_months_witness :
  valid_request (request_of (Py.VInt 24)) sample_input 24 /\
  exists r st',
    process_prediction_request false unit no_model sample_now
      (Py.VDict (request_of (Py.VInt 24))) tt = (Success r, st') /\
    forall (n : nat) (q q' : Prediction),
      predictions r !! n = Some q ->
      predictions r !! S n = Some q' ->
      period q' = period q + 1 /\
      12 * year q' + month q' = 12 * year q + month q + 1.
Proof.
  assert (Hv : valid_request (request_of (Py.VInt 24)) sample_input 24) by sample_valid.
  split; [exact Hv|].
  exact (consecutive_months false unit no_model sample_now _ _ _ tt Hv).
Defined.

Lemma text_horizon_parsed_witness :
  identity_fields (request_of (Py.VStr " 12 ")) sample_input /\
  Py.int_of_str " 12 " = Some 12 /\
  process_prediction_request false unit no_model sample_now
    (Py.VDict (request_of (Py.VStr " 12 "))) tt
  = process_prediction_request false unit no_model sample_now
      (Py.VDict (<["horizon_window" := Py.VInt 12]> (request_of (Py.VStr " 12 ")))) tt.
Proof.
  split; [sample_identity|].
  destruct (text_horizon_parsed false unit no_model sample_now
              (request_of (Py.VStr " 12 ")) sample_input " 12 " tt
              ltac:(sample_identity) eq_refl) as (Hparsed & _ & Hround & _).
  assert (Hlen : (String.length (Py.str_of_int (Z.abs 12)) <= 4300)%nat)
    by (vm_compute; repeat constructor).
  assert (Hint : Py.int_of_str " 12 " = Some 12)
    by exact (Hround 12 " " " " eq_refl eq_refl Hlen eq_refl).
  split; [exact Hint|]. exact (Hparsed 12 Hint).
Defined.

Lemma counts_and_statistics_witness :
  valid_request (request_of (Py.VInt 5)) sample_input 5 /\
  exists r st',
    process_prediction_request true Z flaky_model sample_now
      (Py.VDict (request_of (Py.VInt 5))) 0 = (Success r, st') /\
    successful_predictions r = Py.len (List.filter has_price (predictions r)) /\
    failed_predictions r = Py.len (List.filter has_error (predictions r)) /\
    successful_predictions r + failed_predictions r = 5.
Proof.
  assert (Hv : valid_request (request_of (Py.VInt 5)) sample_input 5) by sample_valid.
  split; [exact Hv|].
  destruct (counts_and_statistics true Z flaky_model sample_now _ _ _ 0 Hv)
    as (r & st' & Hp & Hs & Hf & _ & _ & Hsum & _).
  exists r, st'. auto.
Defined.

Lemma every_period_failed_witness :
  valid_request (request_of (Py.VInt 4)) sample_input 4 /\
  exists r st',
    process_prediction_request true unit no_model sample_now
      (Py.VDict (request_of (Py.VInt 4))) tt = (Success r, st') /\
    successful_predictions r = 0 /\
    failed_predictions r = 4 /\
    price_statistics r = mkStatistics None None None "unknown" /\
    Py.len (predictions r) = 4.
Proof.
  assert (Hv : valid_request (request_of (Py.VInt 4)) sample_input 4) by sample_valid.
  split; [exact Hv|].
  assert (Hall : Forall (fun reply => failed_reply reply \/
                           exists v, reply = Py.Ok v /\ truthy v = false)
                   (replies unit no_model sample_input (Py.range 4) tt)).
  { repeat constructor. }
  destruct (every_period_failed unit no_model sample_now _ _ _ tt Hv Hall)
    as (r & st' & Hp & Hs & Hf & Hst & Hlen & _).
  exists r, st'. auto.
Defined.

Lemma simulation_statistics_witness :
  valid_request (request_of (Py.VInt 24)) sample_input 24 /\
  exists r st',
    process_prediction_request false unit no_model sample_now
      (Py.VDict (request_of (Py.VInt 24))) tt = (Success r, st') /\
    price_statistics r
    = mkStatistics (Some 20.0%float) (Some 31.5%float) (Some 25.75%float) "increasing".
Proof.
  assert (Hv : valid_request (request_of (Py.VInt 24)) sample_input 24) by sample_valid.
  split; [exact Hv|].
  exact (simulation_statistics unit no_model sample_now _ _ _ tt Hv).
Defined.

Lemma advertised_contract_enforced_witness :
  text_or_absent incomplete_request /\
  List.filter (blank incomplete_request)
    (advertised_required (health_info true sample_now))
  = ["product_type"; "country"] /\
  process_prediction_request true Z flaky_model sample_later
    (Py.VDict incomplete_request) 0
  = (Failure "Missing required parameters: product_type, country" sample_later, 0).
Proof.
  assert (Ht : text_or_absent incomplete_request).
  { intros key [<-|[<-|[<-|[<-|[<-|[]]]]]];
      first [left; reflexivity|right; eexists; reflexivity]. }
  split; [exact Ht|]. split; [reflexivity|].
  destruct (advertised_contract_enforced true Z flaky_model sample_now sample_later
              incomplete_request 0 Ht) as (_ & _ & Hmissing & _).
  apply Hmissing. discriminate.
Defined.

Lemma statistics_ignore_failures_witness :
  predicted_price (entry 1 None) = None /\
  statistics_of [entry 0 (Some 20.0%float); entry 1 None; entry 2 (Some 19.5%float)]
  = statistics_of [entry 0 (Some 20.0%float); entry 2 (Some 19.5%float)].
Proof.
  split; [reflexivity|].
  exact (statistics_ignore_failures [entry 0 (Some 20.0%float)]
           [entry 2 (Some 19.5%float)] (entry 1 None) eq_refl).
Defined.
